(** * anythingllm-document-sync: the reconciliation engine, embedded in Rocq

    A shallow embedding of
      - [anythingllm_loader/database.py]        (module [Database]),
      - [anythingllm_loader/anythingllm_api.py] (module [Api]),
      - [anythingllm_sync/ingest_anythingllm_docs.py] (module [Sync]),
    followed by the properties of the engine stated in the specification.

    Python [str] values are modelled by [string]; only ASCII text is
    considered (the regular-expression class [\w] is taken to be
    [[A-Za-z0-9_]]).  Logging and [print] calls are left out: they never
    change control flow.  The remote AnythingLLM server is a parameter:
    a state type [R] with one oracle per HTTP request the client sends. *)

From Stdlib Require Import String Ascii List ZArith Bool Lia.
Import ListNotations.
Local Open Scope string_scope.
Local Open Scope list_scope.

(* ------------------------------------------------------------------ *)
(** ** Python string operations used by the source *)

Module PyStr.

(** What is left of [s] after its prefix [p], if [s] starts with [p]. *)
Fixpoint drop_prefix (p s : string) : option string :=
  match p with
  | EmptyString => Some s
  | String a p' =>
      match s with
      | String b s' => if Ascii.eqb a b then drop_prefix p' s' else None
      | EmptyString => None
      end
  end.

Definition starts_with (p s : string) : bool :=
  match drop_prefix p s with
  | Some _ => true
  | None => false
  end.

(** [sub in s] on two [str] values: [sub] occurs in [s] as a substring. *)
Fixpoint str_in (sub s : string) : bool :=
  if starts_with sub s then true
  else match s with
       | EmptyString => false
       | String _ s' => str_in sub s'
       end.

(** [x in l] for a list of strings, and [x not in l]. *)
Definition list_in (x : string) (l : list string) : bool :=
  existsb (String.eqb x) l.

Definition not_in (x : string) (l : list string) : bool :=
  negb (list_in x l).

(** [s.split(sep)] for a one-character separator: never the empty list. *)
Fixpoint split (sep : ascii) (s : string) : list string :=
  match s with
  | EmptyString => [EmptyString]
  | String c s' =>
      if Ascii.eqb c sep then EmptyString :: split sep s'
      else match split sep s' with
           | [] => [String c EmptyString]
           | h :: t => String c h :: t
           end
  end.

(** [l[-1]] on the result of a split (which always has an element). *)
Definition index_last (l : list string) : string := last l EmptyString.

(** [l[-2]]; [None] stands for Python's [IndexError]. *)
Definition index_penultimate (l : list string) : option string :=
  match rev l with
  | _ :: x :: _ => Some x
  | _ => None
  end.

(** [list(set(l))]: the distinct elements of [l].  Python leaves the order
    of a set unspecified; one order is fixed here and no statement below
    depends on it. *)
Definition list_set (l : list string) : list string := nodup string_dec l.

(** The class [\w] on ASCII text. *)
Definition is_word (c : ascii) : bool :=
  let n := nat_of_ascii c in
  ((48 <=? n) && (n <=? 57) || (65 <=? n) && (n <=? 90)
   || (97 <=? n) && (n <=? 122) || (n =? 95))%nat.

(** The longest run of word characters is skipped: what a greedy [\w+]
    consumes.  Since ["/"] is no word character, a match of [\w+\/] can
    only end where this run ends. *)
Fixpoint skip_word (s : string) : string :=
  match s with
  | String c s' => if is_word c then skip_word s' else s
  | EmptyString => s
  end.

(** [\.xlsx-\w+\/sheet] matched at the head of [s]. *)
Definition xlsx_sheet_at (s : string) : bool :=
  match drop_prefix ".xlsx-" s with
  | Some (String c rest) => is_word c && starts_with "/sheet" (skip_word rest)
  | _ => false
  end.

(** [re.search(r".*\.xlsx-\w+\/sheet.*", s)] is not [None].  [search] tries
    every start position and both [.*] may match the empty string, so the
    pattern is found exactly when [\.xlsx-\w+\/sheet] matches somewhere. *)
Fixpoint re_search_xlsx_sheet (s : string) : bool :=
  xlsx_sheet_at s
  || match s with
     | String _ s' => re_search_xlsx_sheet s'
     | EmptyString => false
     end.

End PyStr.

(* ------------------------------------------------------------------ *)
(** ** database.py *)

Module Database.

(** A Python [datetime], by its calendar fields. *)
Record datetime := mk_datetime {
  year : Z; month : Z; day : Z;
  hour : Z; minute : Z; second : Z;
  microsecond : Z
}.

(** [int(d.strftime('%Y%m%d%H%M%S'))]: month to second print as two
    digits each, so the digits read back as this number. *)
Definition strftime_int (d : datetime) : Z :=
  (year d * 10000000000 + month d * 100000000 + day d * 1000000
   + hour d * 10000 + minute d * 100 + second d)%Z.

(** What survives [d.strftime('%Y-%m-%d %H:%M:%S')] written to the table and
    [datetime.strptime(..., '%Y-%m-%d %H:%M:%S')] on the way back: the six
    printed fields; the microseconds are gone. *)
Definition sql_datetime (d : datetime) : datetime :=
  mk_datetime (year d) (month d) (day d) (hour d) (minute d) (second d) 0.

(** class AnythingLLMDocument *)
Record AnythingLLMDocument := mk_document {
  local_file_path : string;
  upload_timestamp : datetime;
  anythingllm_document_location : string;
  content : string
}.

(** The [documents] table in insertion order ([id] is the row number; no
    column other than [id] is unique). *)
Definition Table := list AnythingLLMDocument.

(** [initialize_database]: the file is [None] when it does not exist; then
    the table is created unless sqlite fails ([fault]).  An existing file is
    left as it is. *)
Definition initialize_database (fault : bool) (file : option Table)
  : bool * option Table :=
  match file with
  | None => if fault then (false, None) else (true, Some [])
  | Some t => (true, Some t)
  end.

(** [add_document]: a plain [INSERT INTO documents ...]. *)
Definition add_document (t : Table) (d : AnythingLLMDocument) : Table :=
  t ++ [mk_document (local_file_path d)
                    (sql_datetime (upload_timestamp d))
                    (anythingllm_document_location d)
                    (content d)].

(** [remove_document]: [DELETE FROM documents WHERE local_file_path = ?]. *)
Definition remove_document (t : Table) (local_document_path : string) : Table :=
  filter (fun d => negb (String.eqb (local_file_path d) local_document_path)) t.

(** [get_documents]: every row, as an [AnythingLLMDocument]. *)
Definition get_documents (t : Table) : list AnythingLLMDocument := t.

End Database.

(* ------------------------------------------------------------------ *)
(** ** The world one run acts on *)

Module Exec.
Import Database.

(** A [pathlib.Path] yielded by [rglob], by the attributes the scanner
    reads: [str(file)], [file.name], [file.suffix], [file.is_file()]. *)
Record Path := mk_path {
  path_str : string;
  name : string;
  suffix : string;
  is_file : bool
}.

(** The local file system, which the engine only reads:
    [os.path.getsize], the modification time
    [datetime.fromtimestamp(Path(p).stat().st_mtime, tz=timezone.utc)], and
    [Path(base).resolve().rglob("*")]. *)
Record FileSystem := mk_fs {
  getsize : string -> Z;
  st_mtime : string -> datetime;
  rglob : string -> list Path
}.

(** The dictionary [documents[0]] of an upload response: its ['location']
    entry and the text [json.dumps] prints for it. *)
Record UploadedDocument := mk_uploaded {
  location : string;
  json_dumps : string
}.

Record UploadResponse := mk_upload_response {
  up_status_code : Z;
  up_success : bool;
  up_document : UploadedDocument
}.

(** The calls the engine makes on the client and on the ledger, and the
    bodies of the deletion requests, in the order they happen.  A ghost
    log: the source keeps no such list. *)
Inductive Event :=
| Call_upload_document (local_document_path : string)
| Call_embed_new_document (document_to_embed : string)
| Call_unembed_document (document_to_unembed : string)
| Call_unload_document (document_to_unload : string)
| Call_add_document (d : AnythingLLMDocument)
| Call_remove_document (local_document_path : string)
| Request_remove_documents (deletes : list string)
| Request_purge_embeddings (deletes : list string)
| Request_purge_raw (names : list string).

Section WithRemote.
Context {R : Type}.

(** The AnythingLLM server: one oracle per request of the source, each
    from a server state to the next one and the part of the response the
    client looks at. *)
Record Http := mk_http {
  (* GET /api/v1/auth: status code and the ["authenticated"] entry *)
  get_auth : R -> Z * bool;
  (* POST /api/v1/document/upload *)
  post_document_upload : R -> string -> R * UploadResponse;
  (* POST /v1/system/remove-documents, body {"deletes": ...} *)
  post_remove_documents : R -> list string -> R * Z;
  (* POST /api/v1/workspace/<slug>/update-embeddings, body {"adds": ...};
     [None] when [requests] raises *)
  post_embeddings_adds : R -> list string -> R * option Z;
  (* POST /api/v1/workspace<slug>/update-embeddings, body {"deletes": ...},
     the URL as [unembed_document] builds it *)
  post_embeddings_deletes : R -> list string -> R * Z;
  (* GET /api/v1/workspace/<slug>: the ["docpath"] of every document *)
  get_workspace_docpaths : R -> list string;
  (* main, purge mode:
     POST /api/v1/workspace/<slug>/update-embeddings, body {"deletes": ...} *)
  post_purge_embeddings : R -> list string -> R * Z;
  (* main, purge mode:
     DELETE /api/v1/system/remove-documents, body {"names": ...} *)
  delete_remove_documents : R -> list string -> R * Z
}.

Record World := mk_world {
  db : Table;
  remote : R;
  trace : list Event
}.

(** State passing over [World]. *)
Definition M (A : Type) : Type := World -> A * World.

Definition ret {A} (a : A) : M A := fun w => (a, w).

Definition bind {A B} (m : M A) (k : A -> M B) : M B :=
  fun w => let (a, w') := m w in k a w'.

Definition emit (e : Event) : M unit :=
  fun w => (tt, mk_world (db w) (remote w) (trace w ++ [e])).

Definition request {A} (f : R -> R * A) : M A :=
  fun w => let (r, a) := f (remote w) in (a, mk_world (db w) r (trace w)).

Definition read_remote {A} (f : R -> A) : M A :=
  fun w => (f (remote w), w).

(** [for x in xs: body(x)] *)
Fixpoint for_each {A} (xs : list A) (body : A -> M unit) : M unit :=
  match xs with
  | [] => ret tt
  | x :: rest => bind (body x) (fun _ => for_each rest body)
  end.

End WithRemote.

Arguments Http : clear implicits.
Arguments World : clear implicits.
Arguments M : clear implicits.

Declare Scope run_scope.
Delimit Scope run_scope with run.
Notation "x <- m ;; k" := (bind m (fun x => k))
  (at level 61, m at next level, right associativity) : run_scope.
Notation "m ;;; k" := (bind m (fun _ => k))
  (at level 61, right associativity) : run_scope.

End Exec.

(* ------------------------------------------------------------------ *)
(** ** anythingllm_api.py *)

Module Api.
Import PyStr Database Exec.
Local Open Scope run_scope.

(** [AnythingLLM.supported_file_types()], repeats included. *)
Definition supported_file_types : list string :=
  ["txt"; "md"; "org"; "adoc"; "rst"; "html"; "docx"; "odt"; "odp"; "pdf";
   "mbox"; "epub"; "js"; "j2"; "py"; "java"; "sh"; "json"; "yaml"; "yml";
   "sql"; "toml"; "csv"; "tsv"; "ini"; "conf"; "log"; "cfg"; "properties";
   "xml"; "jsonl"; "csv"; "tsv"; "ini"; "conf"; "log"; "cfg"; "properties";
   "xml"; "jsonl"].

(** The name [unload_document] puts in its request: for a sheet of a
    spreadsheet, [document_to_unload.split('/')[-2]].  [None] would be an
    [IndexError]; [unload_name_total] below shows there is none. *)
Definition unload_name (document_to_unload : string) : option string :=
  if re_search_xlsx_sheet document_to_unload
  then index_penultimate (split "/" document_to_unload)
  else Some document_to_unload.

Section Client.
Context {R : Type} (http : Http R) (fs : FileSystem).

Definition authenticate (r : R) : bool :=
  let (status_code, authenticated) := get_auth http r in
  (status_code =? 200)%Z && authenticated.

Definition upload_document (local_document_path : string)
  : M R (option UploadedDocument) :=
  emit (Call_upload_document local_document_path) ;;;
  if (getsize fs local_document_path =? 0)%Z then ret None
  else if not_in (index_last (split "." local_document_path))
                 supported_file_types then ret None
  else
    response <- request (fun r => post_document_upload http r local_document_path) ;;
    if negb (up_status_code response =? 200)%Z then ret None
    else if negb (up_success response) then ret None
    else ret (Some (up_document response)).

Definition unload_document (document_to_unload : string) : M R bool :=
  emit (Call_unload_document document_to_unload) ;;;
  let document_to_unload :=
    match unload_name document_to_unload with
    | Some n => n
    | None => document_to_unload
    end in
  emit (Request_remove_documents [document_to_unload]) ;;;
  status_code <- request (fun r => post_remove_documents http r [document_to_unload]) ;;
  if negb (status_code =? 200)%Z then ret false else ret true.

(** Nothing is returned; the half-second pause after a 200 is not
    modelled. *)
Definition embed_new_document (document_to_embed : string) : M R unit :=
  emit (Call_embed_new_document document_to_embed) ;;;
  _ <- request (fun r => post_embeddings_adds http r [document_to_embed]) ;;
  ret tt.

Definition fetch_embedded_workspace_documents : M R (list string) :=
  embedded_document_paths <- read_remote (get_workspace_docpaths http) ;;
  ret (list_set embedded_document_paths).

Definition unembed_document (document_to_unembed : string) : M R unit :=
  emit (Call_unembed_document document_to_unembed) ;;;
  _ <- request (fun r => post_embeddings_deletes http r [document_to_unembed]) ;;
  ret tt.

End Client.
End Api.

(* ------------------------------------------------------------------ *)
(** ** ingest_anythingllm_docs.py *)

Module Sync.
Import PyStr Database Exec Api.
Local Open Scope run_scope.

(** class AnythingLLMConfig (config.py) *)
Record AnythingLLMConfig := mk_config {
  api_key : string;
  file_paths : list string;
  directory_excludes : list string;
  file_excludes : list string;
  workspace_slug : string
}.

(** The command line: [--force], [--purge], [--purge-raw]. *)
Record Args := mk_args {
  force : bool;
  purge : bool;
  purge_raw : bool
}.

(** [s.lstrip('.')] *)
Fixpoint lstrip (c : ascii) (s : string) : string :=
  match s with
  | String a s' => if Ascii.eqb a c then lstrip c s' else s
  | EmptyString => s
  end.

(** The two exclude loops of [fetch_local_documents]: a file exclude found
    in [file.name], or a directory exclude found in [str(file)]. *)
Definition excluded (config : AnythingLLMConfig) (file : Path) : bool :=
  let exclude := existsb (fun excl => str_in excl (name file)) (file_excludes config) in
  if existsb (fun excl => str_in excl (path_str file)) (directory_excludes config)
  then true else exclude.

(** The body of the scan loop for one [file]: what it appends.  [rglob]
    runs on a resolved base, so [file] is absolute and
    [str(file.absolute())] is [str(file)]. *)
Definition scan_file (config : AnythingLLMConfig) (file : Path) : list string :=
  if excluded config file then []
  else
    let ext := lstrip "." (suffix file) in
    if not_in ext supported_file_types then []
    else if is_file file then [path_str file] else [].

Definition fetch_local_documents (config : AnythingLLMConfig) (fs : FileSystem)
  : list string :=
  flat_map (fun base_path_str => flat_map (scan_file config) (rglob fs base_path_str))
           (file_paths config).

Section Engine.
Context {R : Type} (http : Http R) (fs : FileSystem).

Definition db_get_documents : M R (list AnythingLLMDocument) :=
  fun w => (get_documents (db w), w).

Definition db_add_document (d : AnythingLLMDocument) : M R unit :=
  emit (Call_add_document d) ;;;
  fun w => (tt, mk_world (add_document (db w) d) (remote w) (trace w)).

Definition db_remove_document (local_document_path : string) : M R unit :=
  emit (Call_remove_document local_document_path) ;;;
  fun w => (tt, mk_world (remove_document (db w) local_document_path)
                         (remote w) (trace w)).

(** The inner loop of [upload_new_documents]: the value of
    [document_loaded] when it ends.  A record of the path that is older
    than the file is passed over; the first one that is not ends the loop. *)
Fixpoint document_loaded (local_document : string) (local_mtime : datetime)
    (loaded_documents : list AnythingLLMDocument) : bool :=
  match loaded_documents with
  | [] => false
  | loaded_doc :: rest =>
      if String.eqb (local_file_path loaded_doc) local_document then
        if (strftime_int local_mtime >? strftime_int (upload_timestamp loaded_doc))%Z
        then document_loaded local_document local_mtime rest
        else true
      else document_loaded local_document local_mtime rest
  end.

Definition upload_one (loaded_documents : list AnythingLLMDocument)
    (local_document : string) : M R unit :=
  let local_mtime := st_mtime fs local_document in
  if negb (document_loaded local_document local_mtime loaded_documents) then
    response <- upload_document http fs local_document ;;
    match response with
    | Some response =>
        db_add_document (mk_document local_document local_mtime
                                     (location response) (json_dumps response))
    | None => ret tt
    end
  else ret tt.

Definition upload_new_documents (local_documents : list string)
    (loaded_documents : list AnythingLLMDocument) : M R unit :=
  for_each local_documents (upload_one loaded_documents).

Definition embed_new_documents (loaded_documents : list AnythingLLMDocument)
    (embedded_documents : list string) : M R unit :=
  let to_embed :=
    map anythingllm_document_location
        (filter (fun doc => not_in (anythingllm_document_location doc) embedded_documents)
                loaded_documents) in
  for_each to_embed (embed_new_document http).

(** Whether the first loop of [remove_embedded_documents] appends
    [emb_loc] to [to_unembed]. *)
Definition unembed_wanted (local_documents : list string)
    (loaded_documents : list AnythingLLMDocument) (emb_loc : string) : bool :=
  match find (fun d => String.eqb (anythingllm_document_location d) emb_loc)
             loaded_documents with
  | None => true
  | Some loaded_doc => not_in (local_file_path loaded_doc) local_documents
  end.

Definition remove_embedded_documents (local_documents : list string)
    (loaded_documents : list AnythingLLMDocument)
    (embedded_documents : list string) : M R unit :=
  let to_unembed := filter (unembed_wanted local_documents loaded_documents)
                           embedded_documents in
  for_each to_unembed (unembed_document http).

Definition remove_loaded_documents (local_documents : list string)
    (loaded_documents : list AnythingLLMDocument) : M R unit :=
  let to_unload :=
    map anythingllm_document_location
        (filter (fun doc => not_in (local_file_path doc) local_documents)
                loaded_documents) in
  for_each to_unload (fun loc =>
    ok <- unload_document http loc ;;
    if ok then db_remove_document loc else ret tt).

(** [main], purge mode, up to the point where the tracking file is
    unlinked: [true] when that point is reached, [false] on the early
    [return]. *)
Definition purge_mode (args : Args) : M R bool :=
  embedded <- fetch_embedded_workspace_documents http ;;
  purged <-
    match embedded with
    | [] => ret true
    | _ :: _ =>
        emit (Request_purge_embeddings embedded) ;;;
        status_code <- request (fun r => post_purge_embeddings http r embedded) ;;
        ret (status_code =? 200)%Z
    end ;;
  if negb purged then ret false
  else
    (if purge_raw args then
       loaded <- db_get_documents ;;
       match loaded with
       | [] => ret tt
       | _ :: _ =>
           let raw_locations := map anythingllm_document_location loaded in
           emit (Request_purge_raw raw_locations) ;;;
           _ <- request (fun r => delete_remove_documents http r raw_locations) ;;
           ret tt
       end
     else ret tt) ;;;
    ret true.

(** [main], normal sync. *)
Definition normal_sync (config : AnythingLLMConfig) : M R unit :=
  let local_documents := fetch_local_documents config fs in
  loaded_documents <- db_get_documents ;;
  upload_new_documents local_documents loaded_documents ;;;
  embedded_documents <- fetch_embedded_workspace_documents http ;;
  loaded_documents <- db_get_documents ;;
  embed_new_documents loaded_documents embedded_documents ;;;
  embedded_documents <- fetch_embedded_workspace_documents http ;;
  remove_embedded_documents local_documents loaded_documents embedded_documents ;;;
  remove_loaded_documents local_documents loaded_documents.

(** What a run leaves behind: the tracking file ([None]: no file), the
    server, and the calls made. *)
Record Outcome := mk_outcome {
  db_file : option Table;
  server : R;
  calls : list Event
}.

(** [main] once the configuration is loaded.  [file] is the tracking
    database before the run and [fault] says whether sqlite fails to create
    a missing one. *)
Definition main (args : Args) (config : AnythingLLMConfig) (fault : bool)
    (file : option Table) (r : R) : Outcome :=
  if negb (authenticate http r) then mk_outcome file r []
  else
    let file := if force args then None else file in
    let (initialized, file) := initialize_database fault file in
    if negb initialized then mk_outcome file r []
    else
      match file with
      | None => mk_outcome None r []
      | Some t =>
          let w0 := mk_world t r [] in
          if purge args then
            let (cleared, w) := purge_mode args w0 in
            mk_outcome (if cleared then None else Some (db w)) (remote w) (trace w)
          else
            let (_, w) := normal_sync config w0 in
            mk_outcome (Some (db w)) (remote w) (trace w)
      end.

End Engine.
End Sync.

(* ------------------------------------------------------------------ *)
(** ** Concrete servers and files, to run the engine on *)

Module Scenario.
Import PyStr Database Exec Api Sync.

(** How a scripted server answers. *)
Record Script := mk_script {
  upload_succeeds : bool;
  remove_status : Z;
  purge_embeddings_status : Z;
  purge_raw_status : Z
}.

(** A server whose state is the list of embedded docpaths: it embeds and
    unembeds what it is asked to, stores an upload of [dir/f] at
    [custom-documents/f-new.json], and answers the deletion requests with
    the scripted status codes. *)
Definition scripted (s : Script) : Http (list string) :=
  mk_http
    (fun _ => (200%Z, true))
    (fun r p =>
       (r, mk_upload_response 200 (upload_succeeds s)
             (mk_uploaded ("custom-documents/" ++ index_last (split "/" p) ++ "-new.json")
                          "{}")))
    (fun r _ => (r, remove_status s))
    (fun r adds => (r ++ adds, Some 200%Z))
    (fun r deletes => (filter (fun x => not_in x deletes) r, 200%Z))
    (fun r => r)
    (fun r deletes =>
       if (purge_embeddings_status s =? 200)%Z
       then (filter (fun x => not_in x deletes) r, 200%Z)
       else (r, purge_embeddings_status s))
    (fun r _ => (r, purge_raw_status s)).

(** Every call succeeds. *)
Definition ideal : Http (list string) := scripted (mk_script true 200 200 200).

Definition noon : datetime := mk_datetime 2024 5 1 12 0 0 0.
Definition morning : datetime := mk_datetime 2024 5 1 9 30 0 0.
Definition noon_and_a_quarter : datetime := mk_datetime 2024 5 1 12 0 0 250000.

(** One root, [/docs], holding the single file [/docs/a.md], last modified
    at [mtime]. *)
Definition one_file (mtime : datetime) : FileSystem :=
  mk_fs (fun _ => 120%Z) (fun _ => mtime)
        (fun base => if String.eqb base "/docs"
                     then [mk_path "/docs/a.md" "a.md" ".md" true] else []).

(** The same root with nothing in it. *)
Definition no_files : FileSystem :=
  mk_fs (fun _ => 0%Z) (fun _ => noon) (fun _ => []).

Definition config : AnythingLLMConfig :=
  mk_config "key" ["/docs"] [".git"] [".DS_Store"] "ws".

Definition normal : Args := mk_args false false false.
Definition purge_with_raw : Args := mk_args false true true.

Definition loc_a : string := "custom-documents/a.md-1.json".
Definition loc_gone : string := "custom-documents/gone.md-7.json".

(** A record of [/docs/a.md] uploaded in the morning, and one uploaded at
    noon. *)
Definition tracked_a : AnythingLLMDocument :=
  mk_document "/docs/a.md" morning loc_a "{}".

Definition tracked_a_noon : AnythingLLMDocument :=
  mk_document "/docs/a.md" noon "custom-documents/a.md-new.json" "{}".

(** A record of a file that is no longer there. *)
Definition tracked_gone : AnythingLLMDocument :=
  mk_document "/docs/gone.md" morning loc_gone "{}".

(** A normal run on [/docs/a.md], tracked since the morning, embedded, and
    modified a quarter of a second after noon. *)
Definition changed_run : Outcome :=
  main ideal (one_file noon_and_a_quarter) normal config false
       (Some [tracked_a]) [loc_a].

(** A normal run when the only tracked file, still embedded, is gone from
    the disk; and the run that follows it, from the table and the server
    the first one left. *)
Definition first_run : Outcome :=
  main ideal no_files normal config false (Some [tracked_gone]) [loc_gone].

Definition second_run : Outcome :=
  main ideal no_files normal config false (db_file first_run) (server first_run).

(** A purge with [--purge-raw] of one tracked, embedded document, on a
    server that answers the raw deletion with status [raw_status] and the
    purge of the embeddings with [embeddings_status]. *)
Definition purge_run (embeddings_status raw_status : Z) : Outcome :=
  main (scripted (mk_script true 200 embeddings_status raw_status)) no_files
       purge_with_raw config false (Some [tracked_a]) [loc_a].

End Scenario.

(* ------------------------------------------------------------------ *)
(** * Properties *)

Import PyStr Database Exec Api Sync.

(** ** Counting calls in a log *)

Definition is_upload_of (p : string) (e : Event) : bool :=
  match e with Call_upload_document q => String.eqb q p | _ => false end.


Definition is_unembed_of (loc : string) (e : Event) : bool :=
  match e with Call_unembed_document l => String.eqb l loc | _ => false end.

Definition count_calls (f : Event -> bool) (log : list Event) : nat :=
  length (filter f log).

(** The rows of a table kept under one local path. *)
Definition records_of (p : string) (t : Table) : list AnythingLLMDocument :=
  filter (fun d => String.eqb (local_file_path d) p) t.

Section Answers.
Context {R : Type} (http : Http R) (fs : FileSystem).

(** What [upload_document] returns for [p] when the server is in state
    [r], and the state it leaves the server in. *)
Definition upload_answer (r : R) (p : string) : option UploadedDocument :=
  fst (upload_document http fs p (mk_world [] r [])).

Definition upload_server (r : R) (p : string) : R :=
  remote (snd (upload_document http fs p (mk_world [] r []))).

(** Whether [unload_document] reports success for [loc] in state [r], and
    the state it leaves the server in. *)
Definition unload_answer (r : R) (loc : string) : bool :=
  fst (unload_document http loc (mk_world [] r [])).

Definition unload_server (r : R) (loc : string) : R :=
  remote (snd (unload_document http loc (mk_world [] r []))).


(** The record [upload_one] hands to the ledger for [p] after the upload
    answered [u]. *)
Definition new_record (p : string) (u : UploadedDocument) : AnythingLLMDocument :=
  mk_document p (st_mtime fs p) (location u) (json_dumps u).

End Answers.

(** The table a run works on: the tracking file after [--force] has
    removed it and [initialize_database] has created it where missing. *)
Definition table_of_run (args : Args) (fault : bool) (file : option Table)
  : option Table :=
  snd (initialize_database fault (if force args then None else file)).

(** Every character of [s] satisfies [f]. *)
Fixpoint all_chars (f : ascii -> bool) (s : string) : bool :=
  match s with
  | EmptyString => true
  | String c s' => f c && all_chars f s'
  end.

Definition no_slash (s : string) : bool :=
  all_chars (fun c => negb (Ascii.eqb c "/")) s.

(** The shape the specification gives for a sheet of a spreadsheet,
    [<name>.xlsx-<id>/sheet-<n>.json], read as it is written: any three
    texts in the three holes. *)
Definition sheet_artifact_shape (s name id n : string) : Prop :=
  s = (name ++ ".xlsx-" ++ id ++ "/sheet-" ++ n ++ ".json")%string.

(* ------------------------------------------------------------------ *)
(** ** The listing of uploaded documents (anythingllm_api.py) *)

Module Listing.

(** An entry of the ["localFiles"] tree of [GET /api/v1/documents]: the
    dictionary's ["type"] and ["name"], and its ["items"] (read for a
    folder only). *)
#[warnings="-register-all"]
Inductive Item := mk_item (type name : string) (items : list Item).

(** [parse_loaded_document(item, loaded_documents)]: the list after the
    call.  Python appends to the one list all calls share; here it is
    passed along. *)
Fixpoint parse_loaded_document (item : Item) (loaded_documents : list string)
  : list string :=
  match item with
  | mk_item type name items =>
      if String.eqb type "folder" then
        (fix each (documents : list Item) (loaded : list string) : list string :=
           match documents with
           | [] => loaded
           | document :: rest => each rest (parse_loaded_document document loaded)
           end) items loaded_documents
      else if String.eqb type "file" then loaded_documents ++ [name]
      else loaded_documents
  end.

(** [fetch_loaded_documents_from_anythingllm], from the list
    [response.json()["localFiles"]["items"]]. *)
Definition fetch_loaded_documents_from_anythingllm (items : list Item)
  : list string :=
  fold_left (fun loaded document => parse_loaded_document document loaded) items [].

(** [n] is the name of an entry of type [file] in the tree, reached through
    entries of type [folder] only. *)
Inductive file_node (n : string) : Item -> Prop :=
| file_here (items : list Item) : file_node n (mk_item "file" n items)
| file_below (name : string) (items : list Item) (child : Item) :
    In child items -> file_node n child ->
    file_node n (mk_item "folder" name items).

End Listing.

(* ------------------------------------------------------------------ *)
(** ** Loading the configuration (config.py) *)

Module ConfigFile.
Import PyStr.

Section Load.
(** A YAML value inside the mapping; [load_config] hands such values on
    as they are. *)
Variable Yaml : Type.

(** A [dict], by its lookup. *)
Definition Mapping : Type := string -> option Yaml.

(** What [yaml.safe_load] returns, by how the value takes the two
    operations [load_config] applies to it, [key in config] and
    [config[key]]. *)
Inductive Value :=
| Null                                 (* an empty file: [None] *)
| Scalar                               (* a number, a boolean, a date, bytes *)
| Text (s : string)                    (* a [str] *)
| Collection (has : string -> bool)    (* a [list] or a [set], by the strings in it *)
| Dictionary (config : Mapping).       (* a [dict] *)

(** The file [load_config] is pointed at: not there, not YAML
    ([safe_load] raises), or holding a value. *)
Inductive ConfigFileState :=
| Absent
| Unparsable
| Parsed (config : Value).

Inductive ConfigError :=
| FileNotFoundError
| YAMLError
| TypeError
| KeyError (message : string).

(** The five values the constructor of [AnythingLLMConfig] receives. *)
Record Loaded := mk_loaded {
  loaded_api_key : Yaml;
  loaded_file_paths : Yaml;
  loaded_directory_excludes : Yaml;
  loaded_file_excludes : Yaml;
  loaded_workspace_slug : Yaml
}.

(** [key in config]; [None] is the [TypeError] of a value that is no
    container.  On a [str] it is the substring test. *)
Definition contains (config : Value) (key : string) : option bool :=
  match config with
  | Null | Scalar => None
  | Text s => Some (str_in key s)
  | Collection has => Some (has key)
  | Dictionary m => Some (match m key with Some _ => true | None => false end)
  end.

(** [config[key]] for a [str] key: only a [dict] can be indexed so, and
    it raises its own [KeyError] for a key it lacks. *)
Definition index (config : Value) (key : string) : ConfigError + Yaml :=
  match config with
  | Dictionary m =>
      match m key with
      | Some v => inr v
      | None => inl (KeyError key)
      end
  | _ => inl TypeError
  end.

(** One of the five tests [if key not in config: raise KeyError(message)],
    followed by [rest]. *)
Definition require (config : Value) (key message : string)
    (rest : ConfigError + Loaded) : ConfigError + Loaded :=
  match contains config key with
  | None => inl TypeError
  | Some false => inl (KeyError message)
  | Some true => rest
  end.

(** The call of the constructor, its arguments evaluated from left to
    right. *)
Definition construct (config : Value) : ConfigError + Loaded :=
  match index config "api-key" with
  | inl e => inl e
  | inr api_key =>
  match index config "file-paths" with
  | inl e => inl e
  | inr file_paths =>
  match index config "directory-excludes" with
  | inl e => inl e
  | inr directory_excludes =>
  match index config "file-excludes" with
  | inl e => inl e
  | inr file_excludes =>
  match index config "workspace-slug" with
  | inl e => inl e
  | inr workspace_slug =>
      inr (mk_loaded api_key file_paths directory_excludes file_excludes
                     workspace_slug)
  end end end end end.

(** [load_config] on a file that can be opened when it exists.  The
    directories it creates on the way are not modelled. *)
Definition load_config (config_file : ConfigFileState) : ConfigError + Loaded :=
  match config_file with
  | Absent => inl FileNotFoundError
  | Unparsable => inl YAMLError
  | Parsed config =>
      require config "api-key" "API key not found in config file"
      (require config "file-paths" "File paths not found in config file"
      (require config "directory-excludes"
               "Directory excludes not found in config file"
      (require config "file-excludes" "File excludes not found in config file"
      (require config "workspace-slug" "Workspace slug not found in config file"
      (construct config)))))
  end.

(** The keys [load_config] asks for, in the order it asks. *)
Definition required_keys : list string :=
  ["api-key"; "file-paths"; "directory-excludes"; "file-excludes";
   "workspace-slug"].

End Load.

Arguments Null {Yaml}.
Arguments Scalar {Yaml}.
Arguments Text {Yaml} s.
Arguments Collection {Yaml} has.
Arguments Dictionary {Yaml} config.
Arguments Absent {Yaml}.
Arguments Unparsable {Yaml}.
Arguments Parsed {Yaml} config.

End ConfigFile.

(* ------------------------------------------------------------------ *)
(** ** Two roots, one inside the other *)

Module Overlap.


(** Both folders are configured as roots. *)
Definition config : AnythingLLMConfig :=
  mk_config "key" ["/docs"; "/docs/sub"] [".git"] [".DS_Store"] "ws".

End Overlap.

(* ------------------------------------------------------------------ *)
(** ** Further notions the properties are stated with *)

Definition is_embed_of (loc : string) (e : Event) : bool :=
  match e with Call_embed_new_document l => String.eqb l loc | _ => false end.

Definition is_unload_of (loc : string) (e : Event) : bool :=
  match e with Call_unload_document l => String.eqb l loc | _ => false end.

(** The two requests of purge mode. *)
Definition is_purge_request (e : Event) : bool :=
  match e with
  | Request_purge_embeddings _ | Request_purge_raw _ => true
  | _ => false
  end.

(** The configuration with other roots. *)
Definition with_roots (config : AnythingLLMConfig) (roots : list string)
  : AnythingLLMConfig :=
  mk_config (api_key config) roots (directory_excludes config)
            (file_excludes config) (workspace_slug config).

(** The field ranges of a Python [datetime]. *)
Definition valid_datetime (d : datetime) : Prop :=
  (1 <= year d <= 9999 /\ 1 <= month d <= 12 /\ 1 <= day d <= 31 /\
   0 <= hour d <= 23 /\ 0 <= minute d <= 59 /\ 0 <= second d <= 59 /\
   0 <= microsecond d <= 999999)%Z.

(** [d1] is in an earlier second than [d2]. *)
Definition earlier_second (d1 d2 : datetime) : Prop :=
  (year d1 < year d2 \/
   year d1 = year d2 /\
   (month d1 < month d2 \/
    month d1 = month d2 /\
    (day d1 < day d2 \/
     day d1 = day d2 /\
     (hour d1 < hour d2 \/
      hour d1 = hour d2 /\
      (minute d1 < minute d2 \/
       minute d1 = minute d2 /\ second d1 < second d2)))))%Z.

Section Logs.
Context {R : Type}.

(** Whatever [m] is run on, it only adds to the log, and every event it
    adds satisfies [P]. *)
Definition emits {A} (P : Event -> Prop) (m : M R A) : Prop :=
  forall w, exists added,
    trace (snd (m w)) = trace w ++ added /\ Forall P added.

End Logs.

(* ------------------------------------------------------------------ *)
(** ** The scanner *)

Section Scanner.
Variable config : AnythingLLMConfig.

Lemma scan_file_excluded (file : Path) :
  excluded config file = true -> scan_file config file = [].
Proof. intros H. unfold scan_file. now rewrite H. Qed.

Lemma directory_exclude_excludes (file : Path) (excl : string) :
  In excl (directory_excludes config) ->
  str_in excl (path_str file) = true ->
  excluded config file = true.
Proof.
  intros Hin Hsub. unfold excluded.
  assert (E : existsb (fun e => str_in e (path_str file))
                      (directory_excludes config) = true).
  { apply existsb_exists. exists excl. split; assumption. }
  now rewrite E.
Qed.

Lemma scan_file_yields (file : Path) (p : string) :
  In p (scan_file config file) ->
  p = path_str file /\ excluded config file = false.
Proof.
  unfold scan_file. destruct (excluded config file) eqn:E; [intros []|].
  destruct (not_in _ _); [intros []|].
  destruct (is_file file); [|intros []].
  intros [<-|[]]. split; reflexivity.
Qed.

Lemma fetch_local_documents_from (fs : FileSystem) (p : string) :
  In p (fetch_local_documents config fs) ->
  exists base file,
    In base (file_paths config) /\ In file (rglob fs base) /\
    In p (scan_file config file).
Proof.
  unfold fetch_local_documents. intros H.
  apply in_flat_map in H. destruct H as [base [Hb H]].
  apply in_flat_map in H. destruct H as [file [Hf H]].
  exists base, file. repeat split; assumption.
Qed.

(** C9. A file whose path contains a directory-exclude substring is never
    put in the desired list: the scan loop appends nothing for it, whatever
    its name, suffix or kind (the exclude test comes first), and its path
    does not occur in the result of the scan.  The scan is a function of
    the configuration and the file system alone: it touches neither the
    ledger nor the server. *)
Theorem directory_exclude_precedence
    (fs : FileSystem) (file : Path) (excl : string) :
  In excl (directory_excludes config) ->
  str_in excl (path_str file) = true ->
  scan_file config file = [] /\
  ~ In (path_str file) (fetch_local_documents config fs).
Proof.
  intros Hin Hsub. split.
  - apply scan_file_excluded. eapply directory_exclude_excludes; eassumption.
  - intros H. apply fetch_local_documents_from in H.
    destruct H as [base [other [_ [_ H]]]].
    apply scan_file_yields in H. destruct H as [Heq Hex].
    assert (Hx : excluded config other = true).
    { eapply directory_exclude_excludes; [eassumption|]. now rewrite <- Heq. }
    congruence.
Qed.

End Scanner.

(** A Markdown file under [.git], with [.git] among the directory
    excludes. *)
Lemma directory_exclude_precedence_witness :
  scan_file Scenario.config (mk_path "/docs/.git/notes.md" "notes.md" ".md" true) = [] /\
  ~ In "/docs/.git/notes.md"
       (fetch_local_documents Scenario.config (Scenario.one_file Scenario.noon)).
Proof.
  apply (directory_exclude_precedence Scenario.config
           (Scenario.one_file Scenario.noon)
           (mk_path "/docs/.git/notes.md" "notes.md" ".md" true) ".git").
  - simpl. left. reflexivity.
  - reflexivity.
Defined.

(* ------------------------------------------------------------------ *)
(** ** The name [unload_document] asks the server to remove *)

Section Splitting.

Lemma split_nonempty (sep : ascii) (s : string) : split sep s <> [].
Proof.
  destruct s as [|c s]; cbn [split]; [discriminate|].
  destruct (Ascii.eqb c sep); [discriminate|].
  destruct (split sep s); discriminate.
Qed.

Lemma split_app_sep (sep : ascii) (a b : string) :
  split sep (a ++ String sep b) = split sep a ++ split sep b.
Proof.
  induction a as [|c a IH]; cbn [append split app].
  - now rewrite Ascii.eqb_refl.
  - destruct (Ascii.eqb c sep); rewrite IH; [reflexivity|].
    destruct (split sep a) eqn:E; [|reflexivity].
    exfalso. now apply (split_nonempty sep a).
Qed.

Lemma split_app_slash (a b : string) :
  split "/" (a ++ String "/" b) = split "/" a ++ split "/" b.
Proof. apply split_app_sep. Qed.

Lemma split_no_slash (s : string) : no_slash s = true -> split "/" s = [s].
Proof.
  induction s as [|c s IH]; simpl; [reflexivity|].
  unfold no_slash in *. simpl. intros H.
  apply andb_true_iff in H. destruct H as [Hc Hs].
  apply negb_true_iff in Hc. rewrite Hc, (IH Hs). reflexivity.
Qed.

Lemma no_slash_app (a b : string) :
  no_slash (a ++ b) = no_slash a && no_slash b.
Proof.
  unfold no_slash. induction a as [|c a IH]; simpl; [reflexivity|].
  now rewrite IH, andb_assoc.
Qed.

Lemma split_length_slash (s : string) :
  no_slash s = false -> (2 <= length (split "/" s))%nat.
Proof.
  induction s as [|c s IH]; [discriminate|].
  unfold no_slash in *. simpl.
  destruct (Ascii.eqb c "/") eqn:E; simpl.
  - intros _. pose proof (split_nonempty "/" s) as Hn.
    destruct (split "/" s); [contradiction|simpl; lia].
  - intros H. specialize (IH H).
    destruct (split "/" s); simpl in *; lia.
Qed.

Lemma index_penultimate_two (l : list string) (x y : string) :
  index_penultimate (l ++ [x; y]) = Some x.
Proof.
  unfold index_penultimate.
  change [x; y] with ([x] ++ [y]). rewrite app_assoc, !rev_unit. reflexivity.
Qed.

Lemma index_penultimate_long (l : list string) :
  (2 <= length l)%nat -> exists x, index_penultimate l = Some x.
Proof.
  intros H. unfold index_penultimate.
  rewrite <- length_rev in H.
  destruct (rev l) as [|y [|x r]]; simpl in H; try lia. now exists x.
Qed.

Lemma drop_prefix_app (p s t : string) :
  drop_prefix p s = Some t -> s = (p ++ t)%string.
Proof.
  revert s. induction p as [|a p IH]; simpl; intros s H.
  - now inversion H.
  - destruct s as [|b s]; [discriminate|].
    destruct (Ascii.eqb a b) eqn:E; [|discriminate].
    apply Ascii.eqb_eq in E. subst b. now rewrite (IH s H).
Qed.

Lemma skip_word_slash (s : string) :
  no_slash (skip_word s) = false -> no_slash s = false.
Proof.
  induction s as [|c s IH]; simpl; [trivial|].
  destruct (is_word c) eqn:E; [|trivial].
  intros H. unfold no_slash in *. simpl. rewrite (IH H). apply andb_false_r.
Qed.

Lemma prefix_sheet_slash (s : string) :
  starts_with "/sheet" s = true -> no_slash s = false.
Proof.
  unfold starts_with. destruct s as [|c s]; cbn [drop_prefix]; [discriminate|].
  destruct (Ascii.eqb "/" c) eqn:E; [|discriminate].
  apply Ascii.eqb_eq in E. subst c. reflexivity.
Qed.

Lemma xlsx_sheet_at_slash (s : string) :
  xlsx_sheet_at s = true -> no_slash s = false.
Proof.
  unfold xlsx_sheet_at.
  destruct (drop_prefix ".xlsx-" s) as [[|c rest]|] eqn:E; try discriminate.
  intros H. apply andb_true_iff in H. destruct H as [_ H].
  apply prefix_sheet_slash, skip_word_slash in H.
  apply drop_prefix_app in E. subst s.
  rewrite no_slash_app. change (String c rest) with ((String c "") ++ rest)%string.
  rewrite no_slash_app, H. now rewrite !andb_false_r.
Qed.

Lemma re_search_slash (s : string) :
  re_search_xlsx_sheet s = true -> no_slash s = false.
Proof.
  induction s as [|c s IH]; cbn [re_search_xlsx_sheet].
  - rewrite orb_false_r. apply xlsx_sheet_at_slash.
  - intros H. apply orb_true_iff in H. destruct H as [H|H].
    + now apply xlsx_sheet_at_slash in H.
    + unfold no_slash in *. simpl. rewrite (IH H). apply andb_false_r.
Qed.

(** The [[-2]] of [unload_document] never raises: a location the pattern
    is found in has a ["/"]. *)
Lemma unload_name_total (loc : string) : exists n, unload_name loc = Some n.
Proof.
  unfold unload_name. destruct (re_search_xlsx_sheet loc) eqn:E.
  - apply index_penultimate_long, split_length_slash, re_search_slash, E.
  - now exists loc.
Qed.

Lemma skip_word_run (id rest : string) :
  all_chars is_word id = true ->
  skip_word (id ++ String "/" rest) = String "/" rest.
Proof.
  induction id as [|c id IH]; simpl; [reflexivity|].
  intros H. apply andb_true_iff in H. destruct H as [Hc Hid].
  now rewrite Hc, IH.
Qed.

Lemma re_search_app (a b : string) :
  xlsx_sheet_at b = true -> re_search_xlsx_sheet (a ++ b) = true.
Proof.
  intros H. induction a as [|c a IH]; cbn [append re_search_xlsx_sheet].
  - destruct b; cbn [re_search_xlsx_sheet]; rewrite H; reflexivity.
  - rewrite IH. apply orb_true_r.
Qed.

Lemma re_search_sheet (a id rest : string) :
  id <> EmptyString -> all_chars is_word id = true ->
  re_search_xlsx_sheet (a ++ ".xlsx-" ++ id ++ "/sheet" ++ rest) = true.
Proof.
  intros Hne Hid. apply re_search_app.
  destruct id as [|c id]; [contradiction|].
  simpl in Hid. apply andb_true_iff in Hid. destruct Hid as [Hc Hid].
  unfold xlsx_sheet_at. cbn [append drop_prefix].
  rewrite !Ascii.eqb_refl, Hc. cbn [andb].
  change ("/sheet" ++ rest)%string with (String "/" ("sheet" ++ rest)).
  rewrite (skip_word_run id _ Hid). reflexivity.
Qed.

End Splitting.

Section SheetNames.

Lemma append_assoc (a b c : string) : ((a ++ b) ++ c = a ++ (b ++ c))%string.
Proof. induction a as [|x a IH]; simpl; [reflexivity|now rewrite IH]. Qed.

Lemma word_is_no_slash (c : ascii) :
  is_word c = true -> negb (Ascii.eqb c "/") = true.
Proof.
  destruct c as [[] [] [] [] [] [] [] []]; intros H;
    try reflexivity; vm_compute in H; discriminate.
Qed.

Lemma word_run_no_slash (id : string) :
  all_chars is_word id = true -> no_slash id = true.
Proof.
  unfold no_slash. induction id as [|c id IH]; simpl; [reflexivity|].
  intros H. apply andb_true_iff in H. destruct H as [Hc Hid].
  now rewrite (word_is_no_slash c Hc), (IH Hid).
Qed.

(** A sheet location, possibly under a folder: [split('/')[-2]] is the
    spreadsheet's container. *)
Lemma sheet_parent (folder name id n : string) :
  (folder = EmptyString \/ exists d, folder = (d ++ "/")%string) ->
  no_slash name = true -> all_chars is_word id = true -> no_slash n = true ->
  index_penultimate
    (split "/" (folder ++ name ++ ".xlsx-" ++ id ++ "/sheet-" ++ n ++ ".json"))
  = Some (name ++ ".xlsx-" ++ id)%string.
Proof.
  intros Hf Hname Hid Hn.
  set (base := (name ++ ".xlsx-" ++ id)%string).
  set (leaf := ("sheet-" ++ n ++ ".json")%string).
  assert (Hbase : no_slash base = true).
  { unfold base. rewrite !no_slash_app, Hname, (word_run_no_slash id Hid). reflexivity. }
  assert (Hleaf : no_slash leaf = true).
  { unfold leaf. rewrite !no_slash_app, Hn. reflexivity. }
  assert (E : (folder ++ name ++ ".xlsx-" ++ id ++ "/sheet-" ++ n ++ ".json"
               = (folder ++ base) ++ String "/" leaf)%string).
  { unfold base, leaf. now rewrite !append_assoc. }
  rewrite E, split_app_slash, (split_no_slash leaf Hleaf).
  destruct Hf as [->|[d ->]].
  - cbn [append]. rewrite (split_no_slash base Hbase). reflexivity.
  - rewrite append_assoc. cbn [append].
    rewrite split_app_slash, (split_no_slash base Hbase), <- app_assoc.
    apply index_penultimate_two.
Qed.

Lemma sheet_found (folder name id n : string) :
  id <> EmptyString -> all_chars is_word id = true ->
  re_search_xlsx_sheet
    (folder ++ name ++ ".xlsx-" ++ id ++ "/sheet-" ++ n ++ ".json") = true.
Proof.
  intros Hne Hid.
  rewrite <- (append_assoc folder name).
  change ("/sheet-" ++ n ++ ".json")%string
    with ("/sheet" ++ ("-" ++ n ++ ".json"))%string.
  now apply re_search_sheet.
Qed.

Lemma unload_name_sheet (folder name id n : string) :
  (folder = EmptyString \/ exists d, folder = (d ++ "/")%string) ->
  no_slash name = true -> id <> EmptyString ->
  all_chars is_word id = true -> no_slash n = true ->
  unload_name (folder ++ name ++ ".xlsx-" ++ id ++ "/sheet-" ++ n ++ ".json")
  = Some (name ++ ".xlsx-" ++ id)%string.
Proof.
  intros Hf Hname Hne Hid Hn. unfold unload_name.
  rewrite (sheet_found folder name id n Hne Hid).
  now apply sheet_parent.
Qed.

(** A text of the sheet shape ends in [json] after its last dot. *)
Lemma sheet_shape_extension (s name id n : string) :
  sheet_artifact_shape s name id n ->
  index_last (split "." s) = "json"%string.
Proof.
  unfold sheet_artifact_shape. intros ->.
  rewrite <- !append_assoc.
  change ".json"%string with (String "." "json").
  rewrite split_app_sep. unfold index_last. cbn [split].
  apply last_last.
Qed.

End SheetNames.

(* ------------------------------------------------------------------ *)
(** ** The client, call by call *)

Section ClientRuns.
Context {R : Type} (http : Http R) (fs : FileSystem).

Lemma unload_document_run (loc n : string) (w : World R) :
  unload_name loc = Some n ->
  unload_document http loc w =
    (let (r', status_code) := post_remove_documents http (remote w) [n] in
     ((status_code =? 200)%Z,
      mk_world (db w) r'
        (trace w ++ [Call_unload_document loc; Request_remove_documents [n]]))).
Proof.
  intros Hn. unfold unload_document, bind, emit, request, ret. cbn.
  rewrite Hn. destruct (post_remove_documents http (remote w) [n]) as [r' st].
  rewrite <- app_assoc. cbn. destruct (st =? 200)%Z; reflexivity.
Qed.

Lemma unload_document_log (loc n : string) (w : World R) :
  unload_name loc = Some n ->
  trace (snd (unload_document http loc w)) =
  trace w ++ [Call_unload_document loc; Request_remove_documents [n]].
Proof.
  intros Hn. rewrite (unload_document_run loc n w Hn).
  destruct (post_remove_documents http (remote w) [n]). reflexivity.
Qed.

(** C6, as the code has it.  The request of [unload_document] names the
    location itself when [\.xlsx-\w+\/sheet] does not occur in it, and the
    last-but-one ["/"]-separated component of the location when it does; for
    a location [<folder/><name>.xlsx-<id>/sheet-<n>.json], with no ["/"] in
    [<name>] and [<n>] and a non-empty run of word characters for [<id>],
    that component is [<name>.xlsx-<id>]. *)
Theorem unload_request_name (loc : string) (w : World R) :
  (re_search_xlsx_sheet loc = false ->
   trace (snd (unload_document http loc w)) =
   trace w ++ [Call_unload_document loc; Request_remove_documents [loc]]) /\
  (re_search_xlsx_sheet loc = true ->
   exists parent,
     index_penultimate (split "/" loc) = Some parent /\
     trace (snd (unload_document http loc w)) =
     trace w ++ [Call_unload_document loc; Request_remove_documents [parent]]) /\
  (forall folder name id n : string,
     (folder = EmptyString \/ exists d, folder = (d ++ "/")%string) ->
     no_slash name = true -> id <> EmptyString ->
     all_chars is_word id = true -> no_slash n = true ->
     loc = (folder ++ name ++ ".xlsx-" ++ id ++ "/sheet-" ++ n ++ ".json")%string ->
     trace (snd (unload_document http loc w)) =
     trace w ++ [Call_unload_document loc;
                 Request_remove_documents [(name ++ ".xlsx-" ++ id)%string]]).
Proof.
  repeat split.
  - intros H. apply unload_document_log. unfold unload_name. now rewrite H.
  - intros H. destruct (unload_name_total loc) as [parent Hp].
    exists parent. split.
    + unfold unload_name in Hp. now rewrite H in Hp.
    + now apply unload_document_log.
  - intros folder name id n Hf Hname Hne Hid Hn ->.
    apply unload_document_log. now apply unload_name_sheet.
Qed.

End ClientRuns.

(** The example of the specification. *)
Lemma unload_request_name_witness :
  trace (snd (unload_document Scenario.ideal "foo.xlsx-abc123/sheet-Sheet1.json"
                (mk_world [] [] []))) =
  [Call_unload_document "foo.xlsx-abc123/sheet-Sheet1.json";
   Request_remove_documents ["foo.xlsx-abc123"]].
Proof.
  apply (proj2 (proj2 (unload_request_name Scenario.ideal
                         "foo.xlsx-abc123/sheet-Sheet1.json" (mk_world [] [] [])))
           EmptyString "foo"%string "abc123"%string "Sheet1"%string).
  - left. reflexivity.
  - reflexivity.
  - discriminate.
  - reflexivity.
  - reflexivity.
  - reflexivity.
Defined.

(** C6, as the specification words it, fails.
    [foo.xlsx-abc123/sheet-Sheet1.csv] is not of the shape
    [<name>.xlsx-<id>/sheet-<n>.json], whatever is put in the three holes,
    and yet the request names [foo.xlsx-abc123] and not the location. *)
Lemma unload_rewrites_beyond_sheet_shape :
  (forall name id n,
     ~ sheet_artifact_shape "foo.xlsx-abc123/sheet-Sheet1.csv" name id n) /\
  trace (snd (unload_document Scenario.ideal "foo.xlsx-abc123/sheet-Sheet1.csv"
                (mk_world [] [] []))) =
  [Call_unload_document "foo.xlsx-abc123/sheet-Sheet1.csv";
   Request_remove_documents ["foo.xlsx-abc123"]] /\
  unload_name "foo.xlsx-abc123/sheet-Sheet1.csv"
  <> Some "foo.xlsx-abc123/sheet-Sheet1.csv"%string.
Proof.
  split; [|split].
  - intros name id n H. apply sheet_shape_extension in H.
    vm_compute in H. discriminate.
  - reflexivity.
  - vm_compute. discriminate.
Qed.

(* ------------------------------------------------------------------ *)
(** ** Phase 1: uploads *)

Section Uploads.
Context {R : Type} (http : Http R) (fs : FileSystem).


Lemma for_each_cons {A} (x : A) (l : list A) (body : A -> M R unit) (w : World R) :
  for_each (x :: l) body w = for_each l body (snd (body x w)).
Proof. cbn [for_each]. unfold bind. destruct (body x w). reflexivity. Qed.

Lemma upload_document_run (p : string) (w : World R) :
  upload_document http fs p w =
  (upload_answer http fs (remote w) p,
   mk_world (db w) (upload_server http fs (remote w) p)
            (trace w ++ [Call_upload_document p])).
Proof.
  unfold upload_answer, upload_server, upload_document, bind, emit, request, ret.
  cbn.
  destruct (getsize fs p =? 0)%Z; [reflexivity|].
  destruct (not_in _ _); [reflexivity|]. cbn.
  destruct (post_document_upload http (remote w) p) as [r' resp]. cbn.
  destruct (up_status_code resp =? 200)%Z; [|reflexivity]. cbn.
  destruct (up_success resp); reflexivity.
Qed.

Lemma upload_one_run (loaded : list AnythingLLMDocument) (p : string) (w : World R) :
  snd (upload_one http fs loaded p w) =
  if document_loaded p (st_mtime fs p) loaded then w
  else
    match upload_answer http fs (remote w) p with
    | Some u =>
        mk_world (add_document (db w) (new_record fs p u))
                 (upload_server http fs (remote w) p)
                 (trace w ++ [Call_upload_document p;
                              Call_add_document (new_record fs p u)])
    | None =>
        mk_world (db w) (upload_server http fs (remote w) p)
                 (trace w ++ [Call_upload_document p])
    end.
Proof.
  unfold upload_one. destruct (document_loaded p (st_mtime fs p) loaded); cbn.
  - reflexivity.
  - unfold bind. rewrite upload_document_run.
    destruct (upload_answer http fs (remote w) p) as [u|]; [|reflexivity].
    unfold db_add_document, bind, emit, new_record. cbn.
    now rewrite <- app_assoc.
Qed.

(** The test of the inner loop: some record of the path is not older than
    the file. *)
Lemma document_loaded_iff (p : string) (mtime : datetime)
    (loaded : list AnythingLLMDocument) :
  document_loaded p mtime loaded = true <->
  exists d, In d loaded /\ local_file_path d = p /\
            (strftime_int (upload_timestamp d) >= strftime_int mtime)%Z.
Proof.
  induction loaded as [|d rest IH]; cbn [document_loaded].
  - split; [discriminate|intros [d [[] _]]].
  - destruct (String.eqb (local_file_path d) p) eqn:E.
    + apply String.eqb_eq in E.
      destruct (strftime_int mtime >? strftime_int (upload_timestamp d))%Z eqn:G.
      * rewrite IH. split.
        -- intros [d' [Hin H]]. exists d'. split; [right; exact Hin|exact H].
        -- intros [d' [[<-|Hin] [Hp Hge]]]; [lia|]. exists d'. now split.
      * split; [|reflexivity]. intros _. exists d.
        split; [left; reflexivity|]. split; [exact E|lia].
    + apply String.eqb_neq in E. rewrite IH. split.
      * intros [d' [Hin H]]. exists d'. split; [right; exact Hin|exact H].
      * intros [d' [[<-|Hin] [Hp Hge]]]; [contradiction|]. exists d'. now split.
Qed.

(** The calls of the phase on one path are those of its own turns. *)
Lemma upload_loop_calls (loaded : list AnythingLLMDocument) (p : string)
    (l : list string) (w : World R) :
  In (Call_upload_document p)
     (trace (snd (for_each l (upload_one http fs loaded) w))) <->
  In (Call_upload_document p) (trace w) \/
  (In p l /\ document_loaded p (st_mtime fs p) loaded = false).
Proof.
  revert w. induction l as [|q l IH]; intros w.
  - cbn. tauto.
  - rewrite for_each_cons, IH, upload_one_run.
    destruct (document_loaded q (st_mtime fs q) loaded) eqn:Hq.
    + cbn [In]. split.
      * intros [H|[H1 H2]]; [now left|right; tauto].
      * intros [H | [[-> | H1] H2]]; [now left|congruence|right; tauto].
    + assert (S : forall extra : list Event,
                 (forall e, In e extra -> e <> Call_upload_document p) ->
                 In (Call_upload_document p)
                    (trace w ++ Call_upload_document q :: extra) <->
                 In (Call_upload_document p) (trace w) \/ q = p).
      { intros extra Hx. rewrite in_app_iff. cbn [In]. split.
        - intros [H|[H|H]]; [now left|right; congruence|].
          exfalso. exact (Hx _ H eq_refl).
        - intros [H | ->]; [now left|right; now left]. }
      assert (S' : In (Call_upload_document p)
                      (trace (snd (upload_one http fs loaded q w))) <->
                   In (Call_upload_document p) (trace w) \/ q = p).
      { rewrite upload_one_run, Hq.
        destruct (upload_answer http fs (remote w) q) as [u|]; cbn [trace].
        - apply S. intros e [<-|[]]. discriminate.
        - apply S. intros e []. }
      rewrite upload_one_run, Hq in S'. rewrite S'. cbn [In]. split.
      * intros [[H | ->]|[H1 H2]]; [now left|right; split; [now left|exact Hq]|].
        right. tauto.
      * intros [H | [[-> | H1] H2]]; [left; now left|left; now right|right; tauto].
Qed.

(** C10. In phase 1 an upload of a desired path is attempted exactly when
    the tracked records hold none of that path whose upload time is at or
    after the file's modification time, both read to the second as
    [%Y%m%d%H%M%S]: one recent record of the path is enough to suppress the
    upload, however many older ones stand next to it. *)
Theorem upload_attempted_iff (local_documents : list string)
    (loaded_documents : list AnythingLLMDocument) (t : Table) (r : R) (p : string) :
  In p local_documents ->
  (In (Call_upload_document p)
      (trace (snd (upload_new_documents http fs local_documents loaded_documents
                     (mk_world t r [])))) <->
   ~ exists d, In d loaded_documents /\ local_file_path d = p /\
               (strftime_int (upload_timestamp d) >= strftime_int (st_mtime fs p))%Z).
Proof.
  intros Hin. unfold upload_new_documents.
  rewrite upload_loop_calls, <- document_loaded_iff. cbn [trace In].
  destruct (document_loaded p (st_mtime fs p) loaded_documents); split.
  - intros [[]|[_ H]]. discriminate.
  - intros H. now contradiction H.
  - intros _. discriminate.
  - intros _. right. now split.
Qed.

End Uploads.

Section UploadOfOnePath.
Context {R : Type} (http : Http R) (fs : FileSystem).






End UploadOfOnePath.

(* ------------------------------------------------------------------ *)
(** ** Phase 3: unembedding *)

Section Unembedding.
Context {R : Type} (http : Http R).

Lemma list_in_iff (x : string) (l : list string) :
  list_in x l = true <-> In x l.
Proof.
  unfold list_in. rewrite existsb_exists. split.
  - intros [y [Hin E]]. apply String.eqb_eq in E. now subst.
  - intros H. exists x. split; [exact H|apply String.eqb_refl].
Qed.

Lemma unembed_document_run (loc : string) (w : World R) :
  snd (unembed_document http loc w) =
  mk_world (db w) (fst (post_embeddings_deletes http (remote w) [loc]))
           (trace w ++ [Call_unembed_document loc]).
Proof.
  unfold unembed_document, bind, emit, request, ret. cbn.
  destruct (post_embeddings_deletes http (remote w) [loc]). reflexivity.
Qed.

Lemma unembed_loop_count (e : string) (l : list string) (w : World R) :
  count_calls (is_unembed_of e)
    (trace (snd (for_each l (unembed_document http) w))) =
  (count_calls (is_unembed_of e) (trace w) + count_occ string_dec l e)%nat.
Proof.
  revert w. induction l as [|x l IH]; intros w.
  - cbn. lia.
  - rewrite for_each_cons, IH, unembed_document_run. cbn [trace].
    unfold count_calls. rewrite filter_app, length_app. cbn [filter is_unembed_of].
    cbn [count_occ]. destruct (string_dec x e) as [->|Hne].
    + rewrite String.eqb_refl. cbn. lia.
    + apply String.eqb_neq in Hne. rewrite Hne. cbn. lia.
Qed.

Lemma count_occ_filter (f : string -> bool) (l : list string) (e : string) :
  count_occ string_dec (filter f l) e =
  if f e then count_occ string_dec l e else 0%nat.
Proof.
  induction l as [|x l IH]; cbn [filter count_occ].
  - now destruct (f e).
  - destruct (string_dec x e) as [->|Hne].
    + destruct (f e) eqn:E; cbn [count_occ].
      * destruct (string_dec e e); [now rewrite IH|contradiction].
      * exact IH.
    + destruct (f x); cbn [count_occ]; [|exact IH].
      destruct (string_dec x e); [contradiction|exact IH].
Qed.

Lemma count_occ_once (l : list string) (e : string) :
  NoDup l -> In e l -> count_occ string_dec l e = 1%nat.
Proof.
  intros Hnd Hin. apply (proj1 (NoDup_count_occ string_dec l)) with (x := e) in Hnd.
  apply (proj1 (count_occ_In string_dec l e)) in Hin. lia.
Qed.

(** The list [fetch_embedded_workspace_documents] returns has no repeats. *)
Lemma fetch_embedded_nodup (w : World R) :
  NoDup (fst (fetch_embedded_workspace_documents http w)).
Proof. cbn. apply NoDup_nodup. Qed.

Lemma unembed_count (local_documents : list string)
    (loaded_documents : list AnythingLLMDocument)
    (embedded_documents : list string) (w : World R) (e : string) :
  NoDup embedded_documents -> In e embedded_documents ->
  count_calls (is_unembed_of e)
    (trace (snd (remove_embedded_documents http local_documents loaded_documents
                   embedded_documents w))) =
  (count_calls (is_unembed_of e) (trace w) +
   if unembed_wanted local_documents loaded_documents e then 1 else 0)%nat.
Proof.
  intros Hnd Hin. unfold remove_embedded_documents.
  rewrite unembed_loop_count, count_occ_filter, (count_occ_once _ _ Hnd Hin).
  reflexivity.
Qed.

(** C8. In phase 3 a member of the embedded list gets exactly one unembed
    call when no tracked record has its location, exactly one when the
    record found for it (the first with that location) has a local path
    that is not desired, and none when that record's local path is
    desired. *)
Theorem unembed_orphans_and_removed (local_documents : list string)
    (loaded_documents : list AnythingLLMDocument)
    (embedded_documents : list string) (t : Table) (r : R) (e : string) :
  NoDup embedded_documents -> In e embedded_documents ->
  ((forall d, In d loaded_documents -> anythingllm_document_location d <> e) ->
   count_calls (is_unembed_of e)
     (trace (snd (remove_embedded_documents http local_documents loaded_documents
                    embedded_documents (mk_world t r [])))) = 1%nat) /\
  (forall d,
     find (fun d => String.eqb (anythingllm_document_location d) e)
          loaded_documents = Some d ->
     (~ In (local_file_path d) local_documents ->
      count_calls (is_unembed_of e)
        (trace (snd (remove_embedded_documents http local_documents loaded_documents
                       embedded_documents (mk_world t r [])))) = 1%nat) /\
     (In (local_file_path d) local_documents ->
      count_calls (is_unembed_of e)
        (trace (snd (remove_embedded_documents http local_documents loaded_documents
                       embedded_documents (mk_world t r [])))) = 0%nat)).
Proof.
  intros Hnd Hin.
  pose proof (unembed_count local_documents loaded_documents embedded_documents
                (mk_world t r []) e Hnd Hin) as H.
  cbn [trace count_calls filter length Nat.add] in H.
  unfold unembed_wanted, not_in in H. split.
  - intros Hno.
    destruct (find _ loaded_documents) as [d|] eqn:F; [|exact H].
    apply find_some in F. destruct F as [Hd E]. apply String.eqb_eq in E.
    now contradiction (Hno d Hd).
  - intros d F. rewrite F in H. split; intros Hp.
    + destruct (list_in (local_file_path d) local_documents) eqn:L; [|exact H].
      apply list_in_iff in L. contradiction.
    + apply list_in_iff in Hp. now rewrite Hp in H.
Qed.

End Unembedding.

(* ------------------------------------------------------------------ *)
(** ** Phase 4: unloading *)

Section Unloading.
Context {R : Type} (http : Http R).

Lemma unload_document_answer (loc : string) (w : World R) :
  unload_document http loc w =
  (unload_answer http (remote w) loc,
   mk_world (db w) (unload_server http (remote w) loc)
     (trace w ++ [Call_unload_document loc;
                  Request_remove_documents
                    [match unload_name loc with Some n => n | None => loc end]])).
Proof.
  destruct (unload_name_total loc) as [n Hn].
  unfold unload_answer, unload_server.
  rewrite !(unload_document_run http loc n _ Hn), Hn. cbn [remote db trace].
  destruct (post_remove_documents http (remote w) [n]). reflexivity.
Qed.

Lemma remove_document_absent (t : Table) (key : string) :
  (forall d, In d t -> local_file_path d <> key) -> remove_document t key = t.
Proof.
  intros H. unfold remove_document. induction t as [|d t IH]; cbn [filter].
  - reflexivity.
  - assert (E : String.eqb (local_file_path d) key = false).
    { apply String.eqb_neq, H. now left. }
    rewrite E. cbn [negb]. rewrite IH; [reflexivity|].
    intros d' Hd'. apply H. now right.
Qed.

(** What phase 4 does to the table: the key it deletes by is the remote
    location.  A table none of whose local paths is the location of a
    tracked record comes out of phase 4 as it went in, whatever the unload
    calls answered. *)
Lemma unload_loop_keeps_table (locs : list string) (w : World R) :
  (forall d loc, In d (db w) -> In loc locs -> local_file_path d <> loc) ->
  db (snd (for_each locs
             (fun loc => bind (unload_document http loc)
                              (fun ok => if ok then db_remove_document loc else ret tt))
             w)) = db w.
Proof.
  revert w. induction locs as [|loc locs IH]; intros w H; [reflexivity|].
  rewrite for_each_cons.
  assert (E : db (snd (bind (unload_document http loc)
                         (fun ok => if ok then db_remove_document loc else ret tt) w))
              = db w).
  { unfold bind. rewrite unload_document_answer.
    destruct (unload_answer http (remote w) loc); cbn; [|reflexivity].
    apply remove_document_absent. intros d Hd. apply (H d loc Hd). now left. }
  rewrite IH; [exact E|].
  rewrite E. intros d l Hd Hl. apply (H d l Hd). now right.
Qed.

(** Phase 4 as a whole: when no local path in the table is the remote
    location of a tracked record, the table comes out as it went in,
    whatever the unload calls answered. *)
Lemma phase4_keeps_table (local_documents : list string)
    (loaded_documents : list AnythingLLMDocument) (w : World R) :
  (forall d d', In d (db w) -> In d' loaded_documents ->
                local_file_path d <> anythingllm_document_location d') ->
  db (snd (remove_loaded_documents http local_documents loaded_documents w)) = db w.
Proof.
  intros H. unfold remove_loaded_documents. apply unload_loop_keeps_table.
  intros d loc Hd Hloc. apply in_map_iff in Hloc.
  destruct Hloc as [d' [<- Hd']]. apply filter_In in Hd'.
  apply (H d d' Hd (proj1 Hd')).
Qed.

End Unloading.

(* ------------------------------------------------------------------ *)
(** ** Purge mode *)

Section Purging.
Context {R : Type} (http : Http R) (fs : FileSystem).

Lemma purge_mode_raw_request (args : Args) (w : World R) (names : list string) :
  In (Request_purge_raw names) (trace (snd (purge_mode http args w))) ->
  In (Request_purge_raw names) (trace w) \/
  (purge_raw args = true /\
   names = map anythingllm_document_location (get_documents (db w))).
Proof.
  unfold purge_mode, bind, fetch_embedded_workspace_documents, read_remote,
    emit, request, ret, db_get_documents.
  cbn -[In get_documents].
  destruct (list_set (get_workspace_docpaths http (remote w))) as [|e es];
    cbn -[In get_documents].
  - destruct (purge_raw args); cbn -[In get_documents]; [|now left].
    destruct (get_documents (db w)) as [|d ds]; cbn -[In get_documents]; [now left|].
    destruct (delete_remove_documents http (remote w) _). cbn -[In get_documents].
    rewrite in_app_iff. cbn [In]. intros [H|[H|[]]]; [now left|].
    right. split; [reflexivity|]. now inversion H.
  - destruct (post_purge_embeddings http (remote w) (e :: es)) as [r1 st].
    cbn -[In get_documents].
    destruct (st =? 200)%Z; cbn -[In get_documents].
    + destruct (purge_raw args); cbn -[In get_documents].
      * destruct (get_documents (db w)) as [|d ds]; cbn -[In get_documents].
        -- rewrite in_app_iff. cbn [In]. intros [H|[H|[]]]; [now left|discriminate].
        -- destruct (delete_remove_documents http r1 _). cbn -[In get_documents].
           rewrite !in_app_iff. cbn [In].
           intros [[H|[H|[]]]|[H|[]]]; [now left|discriminate|].
           right. split; [reflexivity|]. now inversion H.
      * rewrite in_app_iff. cbn [In]. intros [H|[H|[]]]; [now left|discriminate].
    + rewrite in_app_iff. cbn [In]. intros [H|[H|[]]]; [now left|discriminate].
Qed.

(** C5. In a purge run, a raw-deletion request is sent only with
    [--purge-raw], and the names in it are the remote locations of the
    records in the tracking table at that time, all of them and nothing
    else, in table order. *)
Theorem purge_raw_scope (args : Args) (config : AnythingLLMConfig) (fault : bool)
    (file : option Table) (r : R) (names : list string) :
  purge args = true ->
  In (Request_purge_raw names) (calls (main http fs args config fault file r)) ->
  purge_raw args = true /\
  exists t, table_of_run args fault file = Some t /\
            names = map anythingllm_document_location (get_documents t).
Proof.
  intros Hp. unfold main, table_of_run.
  destruct (authenticate http r); cbn [negb]; [|intros []].
  destruct (initialize_database fault (if force args then None else file))
    as [ok file'] eqn:I.
  destruct ok; cbn [negb calls snd]; [|intros []].
  destruct file' as [t|]; [|intros []].
  rewrite Hp.
  destruct (purge_mode http args (mk_world t r [])) as [cleared w] eqn:P.
  cbn [calls]. intros H.
  assert (H' : In (Request_purge_raw names)
                  (trace (snd (purge_mode http args (mk_world t r []))))).
  { now rewrite P. }
  apply purge_mode_raw_request in H'. cbn [trace db In] in H'.
  destruct H' as [[]|[Hraw Hn]]. split; [exact Hraw|].
  exists t. split; [reflexivity|exact Hn].
Qed.

End Purging.

(* ------------------------------------------------------------------ *)
(** ** The engine on concrete runs *)

Section Runs.
Import Scenario.

(** C1, on the code.  [/docs/a.md] has one record, from the morning; the
    file was modified after noon.  The run uploads it again, and the table
    then holds two records of the path: [add_document] inserts a row and
    nothing removes or overwrites the old one. *)
Lemma reupload_duplicates_record :
  (strftime_int (st_mtime (one_file noon_and_a_quarter) "/docs/a.md")
   > strftime_int (upload_timestamp tracked_a))%Z /\
  records_of "/docs/a.md" [tracked_a] = [tracked_a] /\
  In (Call_upload_document "/docs/a.md") (calls changed_run) /\
  db_file changed_run = Some [tracked_a; tracked_a_noon] /\
  records_of "/docs/a.md" [tracked_a; tracked_a_noon] = [tracked_a; tracked_a_noon].
Proof.
  split; [reflexivity|]. split; [reflexivity|].
  split; [vm_compute; left; reflexivity|]. split; reflexivity.
Qed.

(** C2, on the code.  The tracked file is gone from the disk and the
    unload call succeeds; the ledger is then asked to delete the rows whose
    local path is the remote location, and the record stays. *)
Lemma unload_success_keeps_record :
  unload_answer ideal [] loc_gone = true /\
  snd (remove_loaded_documents ideal [] [tracked_gone]
         (mk_world [tracked_gone] [] [])) =
  mk_world [tracked_gone] []
    [Call_unload_document loc_gone;
     Request_remove_documents [loc_gone];
     Call_remove_document loc_gone].
Proof. split; reflexivity. Qed.

(** C3, on the code.  Every call of the first run succeeds, nothing
    changes between the runs, and the second run embeds, unembeds and
    unloads the document of the removed file again: its record is still in
    the table. *)
Lemma second_run_repeats_calls :
  calls first_run =
    [Call_unembed_document loc_gone;
     Call_unload_document loc_gone;
     Request_remove_documents [loc_gone];
     Call_remove_document loc_gone] /\
  db_file first_run = Some [tracked_gone] /\
  calls second_run =
    [Call_embed_new_document loc_gone;
     Call_unembed_document loc_gone;
     Call_unload_document loc_gone;
     Request_remove_documents [loc_gone];
     Call_remove_document loc_gone].
Proof. repeat split; reflexivity. Qed.

(** The purge of the embeddings fails: the run stops there, no raw
    deletion is requested and the tracking file stays. *)
Lemma embedding_purge_failure_aborts :
  purge_run 500 200 =
  mk_outcome (Some [tracked_a]) [loc_a] [Request_purge_embeddings [loc_a]].
Proof. reflexivity. Qed.

(** C4, on the code.  The raw deletion is answered with status 500; the
    run goes on and removes the tracking file. *)
Lemma raw_deletion_failure_discards_ledger :
  purge_run 200 500 =
  mk_outcome None [] [Request_purge_embeddings [loc_a]; Request_purge_raw [loc_a]].
Proof. reflexivity. Qed.

End Runs.

(* ------------------------------------------------------------------ *)
(** ** The general statements at concrete inputs *)

(** Two records of [/docs/a.md], one from the morning and one from noon;
    the file was modified a quarter of a second after noon: no upload. *)
Lemma upload_attempted_iff_witness :
  ~ In (Call_upload_document "/docs/a.md")
       (trace (snd (upload_new_documents Scenario.ideal
                      (Scenario.one_file Scenario.noon_and_a_quarter)
                      ["/docs/a.md"%string]
                      [Scenario.tracked_a; Scenario.tracked_a_noon]
                      (mk_world [Scenario.tracked_a; Scenario.tracked_a_noon] [] [])))).
Proof.
  intros H.
  apply (proj1 (upload_attempted_iff Scenario.ideal
                  (Scenario.one_file Scenario.noon_and_a_quarter)
                  ["/docs/a.md"%string]
                  [Scenario.tracked_a; Scenario.tracked_a_noon]
                  [Scenario.tracked_a; Scenario.tracked_a_noon] []
                  "/docs/a.md" (or_introl eq_refl))) in H.
  apply H. exists Scenario.tracked_a_noon.
  split; [right; left; reflexivity|]. split; [reflexivity|].
  vm_compute. discriminate.
Defined.

(** An embedded location no record knows, next to a tracked one. *)
Lemma unembed_orphans_and_removed_witness :
  count_calls (is_unembed_of "custom-documents/orphan.md-3.json")
    (trace (snd (remove_embedded_documents Scenario.ideal
                   ["/docs/a.md"%string] [Scenario.tracked_a]
                   ["custom-documents/orphan.md-3.json"%string; Scenario.loc_a]
                   (mk_world [Scenario.tracked_a] [] [])))) = 1%nat.
Proof.
  apply (proj1 (unembed_orphans_and_removed Scenario.ideal
                  ["/docs/a.md"%string] [Scenario.tracked_a]
                  ["custom-documents/orphan.md-3.json"%string; Scenario.loc_a]
                  [Scenario.tracked_a] []
                  "custom-documents/orphan.md-3.json"
                  ltac:(repeat constructor; cbn; intuition discriminate)
                  (or_introl eq_refl))).
  intros d [<-|[]]. vm_compute. discriminate.
Defined.

(** A purge with [--purge-raw] of one tracked document. *)
Lemma purge_raw_scope_witness :
  purge_raw Scenario.purge_with_raw = true /\
  exists t,
    table_of_run Scenario.purge_with_raw false (Some [Scenario.tracked_a]) = Some t /\
    [Scenario.loc_a] = map anythingllm_document_location (get_documents t).
Proof.
  apply (purge_raw_scope Scenario.ideal Scenario.no_files Scenario.purge_with_raw
           Scenario.config false (Some [Scenario.tracked_a]) [Scenario.loc_a]
           [Scenario.loc_a] eq_refl).
  vm_compute. right. left. reflexivity.
Defined.

(* ------------------------------------------------------------------ *)
(** * Further properties of the code *)

(** ** The scanner, completely *)

Section ScannerMore.
Variable config : AnythingLLMConfig.

Lemma excluded_false_iff (file : Path) :
  excluded config file = false <->
  (forall excl, In excl (file_excludes config) -> str_in excl (name file) = false) /\
  (forall excl, In excl (directory_excludes config) ->
                str_in excl (path_str file) = false).
Proof.
  unfold excluded.
  destruct (existsb (fun excl => str_in excl (path_str file))
                    (directory_excludes config)) eqn:D.
  - split; [discriminate|]. intros [_ H].
    apply existsb_exists in D. destruct D as [excl [Hin Hs]].
    rewrite (H excl Hin) in Hs. discriminate.
  - destruct (existsb (fun excl => str_in excl (name file)) (file_excludes config))
      eqn:F.
    + split; [discriminate|]. intros [H _].
      apply existsb_exists in F. destruct F as [excl [Hin Hs]].
      rewrite (H excl Hin) in Hs. discriminate.
    + split; [|reflexivity]. intros _. split; intros excl Hin.
      * destruct (str_in excl (name file)) eqn:E; [|reflexivity].
        assert (X : existsb (fun excl => str_in excl (name file))
                            (file_excludes config) = true)
          by (apply existsb_exists; exists excl; now split).
        congruence.
      * destruct (str_in excl (path_str file)) eqn:E; [|reflexivity].
        assert (X : existsb (fun excl => str_in excl (path_str file))
                            (directory_excludes config) = true)
          by (apply existsb_exists; exists excl; now split).
        congruence.
Qed.

(** The desired list, completely: a path is in it exactly when some root
    yields a regular file of that path whose name contains no file
    exclude, whose path contains no directory exclude, and whose suffix,
    leading dots removed, is a supported type. *)
Theorem scan_characterisation (fs : FileSystem) (p : string) :
  In p (fetch_local_documents config fs) <->
  exists base file,
    In base (file_paths config) /\ In file (rglob fs base) /\
    path_str file = p /\
    (forall excl, In excl (file_excludes config) -> str_in excl (name file) = false) /\
    (forall excl, In excl (directory_excludes config) ->
                  str_in excl (path_str file) = false) /\
    In (lstrip "." (suffix file)) supported_file_types /\
    is_file file = true.
Proof.
  unfold fetch_local_documents. split.
  - intros H. apply in_flat_map in H. destruct H as [base [Hb H]].
    apply in_flat_map in H. destruct H as [file [Hf H]].
    exists base, file. split; [exact Hb|]. split; [exact Hf|].
    unfold scan_file in H.
    destruct (excluded config file) eqn:E; [destruct H|].
    apply excluded_false_iff in E. destruct E as [E1 E2].
    destruct (not_in (lstrip "." (suffix file)) supported_file_types) eqn:N;
      [destruct H|].
    destruct (is_file file) eqn:I; [|destruct H].
    destruct H as [<-|[]]. repeat split; try assumption.
    unfold not_in in N. apply negb_false_iff in N. now apply list_in_iff.
  - intros [base [file [Hb [Hf [<- [E1 [E2 [S I]]]]]]]].
    apply in_flat_map. exists base. split; [exact Hb|].
    apply in_flat_map. exists file. split; [exact Hf|].
    unfold scan_file.
    rewrite (proj2 (excluded_false_iff file) (conj E1 E2)).
    unfold not_in. rewrite (proj2 (list_in_iff _ _) S), I. now left.
Qed.

Lemma str_in_empty (s : string) : str_in EmptyString s = true.
Proof. destruct s; reflexivity. Qed.

Lemma flat_map_nothing {A B} (f : A -> list B) (l : list A) :
  (forall x, In x l -> f x = []) -> flat_map f l = [].
Proof.
  induction l as [|x l IH]; intros H; cbn [flat_map]; [reflexivity|].
  rewrite (H x (or_introl eq_refl)), IH; [reflexivity|].
  intros y Hy. apply H. now right.
Qed.

(** An empty text among the excludes excludes everything: it is a
    substring of every name and of every path, so the scan returns
    nothing. *)
Theorem empty_exclude_empties_scan (fs : FileSystem) :
  In EmptyString (file_excludes config) \/
  In EmptyString (directory_excludes config) ->
  fetch_local_documents config fs = [].
Proof.
  intros H. unfold fetch_local_documents.
  apply flat_map_nothing. intros base _.
  apply flat_map_nothing. intros file _.
  apply scan_file_excluded.
  destruct (excluded config file) eqn:E; [reflexivity|].
  apply excluded_false_iff in E. destruct E as [E1 E2].
  destruct H as [H|H].
  - specialize (E1 _ H). now rewrite str_in_empty in E1.
  - specialize (E2 _ H). now rewrite str_in_empty in E2.
Qed.

(** The roots are scanned one after the other and nothing is merged: the
    scan of two lists of roots is the scan of the first followed by the
    scan of the second, so a file under two of the roots is listed
    twice. *)
Theorem scan_of_roots_concatenates (fs : FileSystem) (roots1 roots2 : list string)
    (p : string) :
  fetch_local_documents (with_roots config (roots1 ++ roots2)) fs =
  fetch_local_documents (with_roots config roots1) fs ++
  fetch_local_documents (with_roots config roots2) fs /\
  count_occ string_dec
    (fetch_local_documents (with_roots config (roots1 ++ roots2)) fs) p =
  (count_occ string_dec (fetch_local_documents (with_roots config roots1) fs) p +
   count_occ string_dec (fetch_local_documents (with_roots config roots2) fs) p)%nat.
Proof.
  assert (E : fetch_local_documents (with_roots config (roots1 ++ roots2)) fs =
              fetch_local_documents (with_roots config roots1) fs ++
              fetch_local_documents (with_roots config roots2) fs).
  { unfold fetch_local_documents, with_roots. cbn [file_paths].
    rewrite flat_map_app. reflexivity. }
  split; [exact E|]. rewrite E. apply count_occ_app.
Qed.

End ScannerMore.

Lemma scan_characterisation_witness :
  In "/docs/a.md"%string
     (fetch_local_documents Scenario.config (Scenario.one_file Scenario.noon)).
Proof.
  apply (proj2 (scan_characterisation Scenario.config
                  (Scenario.one_file Scenario.noon) "/docs/a.md")).
  exists "/docs"%string, (mk_path "/docs/a.md" "a.md" ".md" true).
  split; [left; reflexivity|]. split; [left; reflexivity|].
  split; [reflexivity|].
  split; [intros excl [<-|[]]; reflexivity|].
  split; [intros excl [<-|[]]; reflexivity|].
  split; [right; left; reflexivity|reflexivity].
Defined.

Lemma empty_exclude_empties_scan_witness :
  fetch_local_documents (mk_config "key" ["/docs"%string] [""%string] [] "ws")
                        (Scenario.one_file Scenario.noon) = [].
Proof.
  apply (empty_exclude_empties_scan
           (mk_config "key" ["/docs"%string] [""%string] [] "ws")
           (Scenario.one_file Scenario.noon)).
  right. left. reflexivity.
Defined.

(* ------------------------------------------------------------------ *)
(** ** The ledger and its timestamps *)

Section LedgerMore.

Lemma strftime_int_sql (d : datetime) :
  strftime_int (sql_datetime d) = strftime_int d.
Proof. reflexivity. Qed.

(** Comparing the numbers [%Y%m%d%H%M%S] prints compares the times: for
    two datetimes within Python's field ranges, the number of the first is
    below that of the second exactly when the first lies in an earlier
    second. *)
Theorem stamp_order_is_time_order (d1 d2 : datetime) :
  valid_datetime d1 -> valid_datetime d2 ->
  ((strftime_int d1 < strftime_int d2)%Z <-> earlier_second d1 d2).
Proof.
  unfold valid_datetime, earlier_second, strftime_int.
  destruct d1 as [y1 mo1 dd1 h1 mi1 s1 u1], d2 as [y2 mo2 dd2 h2 mi2 s2 u2].
  cbn [year month day hour minute second microsecond].
  intros V1 V2. split; intros H; lia.
Qed.

(** Two datetimes within the field ranges print the same number exactly
    when the table stores the same time for them: the change test of
    phase 1 cannot tell a time from what the table keeps of it, and tells
    apart any two times the table keeps apart. *)
Theorem stamp_equal_iff_stored_equal (d1 d2 : datetime) :
  valid_datetime d1 -> valid_datetime d2 ->
  (strftime_int d1 = strftime_int d2 <-> sql_datetime d1 = sql_datetime d2).
Proof.
  unfold valid_datetime, sql_datetime, strftime_int.
  destruct d1 as [y1 mo1 dd1 h1 mi1 s1 u1], d2 as [y2 mo2 dd2 h2 mi2 s2 u2].
  cbn [year month day hour minute second microsecond].
  intros V1 V2. split; intros H.
  - assert (y1 = y2 /\ mo1 = mo2 /\ dd1 = dd2 /\ h1 = h2 /\ mi1 = mi2 /\ s1 = s2)
      as [-> [-> [-> [-> [-> ->]]]]] by lia.
    reflexivity.
  - inversion H. reflexivity.
Qed.

Lemma document_loaded_app (p : string) (mtime : datetime)
    (l1 l2 : list AnythingLLMDocument) :
  document_loaded p mtime (l1 ++ l2) =
  document_loaded p mtime l1 || document_loaded p mtime l2.
Proof.
  induction l1 as [|d l1 IH]; cbn [app document_loaded]; [reflexivity|].
  destruct (String.eqb (local_file_path d) p); [|exact IH].
  destruct (strftime_int mtime >? strftime_int (upload_timestamp d))%Z;
    [exact IH|reflexivity].
Qed.

(** What [add_document] stores is enough for the next run: once a record
    of a path is inserted with the file's modification time, the change
    test of phase 1 finds the path loaded for that time and for any time
    that is not in a later second, sub-second part or not. *)
Theorem stored_record_suppresses_upload (t : Table) (p loc json : string)
    (mtime later : datetime) :
  (strftime_int later <= strftime_int mtime)%Z ->
  document_loaded p later
    (get_documents (add_document t (mk_document p mtime loc json))) = true.
Proof.
  intros H. unfold get_documents, add_document.
  rewrite document_loaded_app. cbn [document_loaded local_file_path upload_timestamp].
  rewrite String.eqb_refl, strftime_int_sql.
  destruct (strftime_int later >? strftime_int mtime)%Z eqn:G; [lia|].
  apply orb_true_r.
Qed.

Lemma records_of_remove_other (t : Table) (p q : string) :
  q <> p -> records_of q (remove_document t p) = records_of q t.
Proof.
  intros Hne. unfold records_of, remove_document.
  induction t as [|d t IH]; cbn [filter]; [reflexivity|].
  destruct (String.eqb (local_file_path d) p) eqn:E; cbn [negb filter].
  - apply String.eqb_eq in E.
    assert (X : String.eqb (local_file_path d) q = false).
    { apply String.eqb_neq. congruence. }
    rewrite X. exact IH.
  - destruct (String.eqb (local_file_path d) q); [now rewrite IH|exact IH].
Qed.

(** [remove_document] deletes every record kept under the path, however
    many there are, and no record kept under another path. *)
Theorem remove_document_forgets_path (t : Table) (p : string) :
  records_of p (remove_document t p) = [] /\
  (forall q, q <> p -> records_of q (remove_document t p) = records_of q t).
Proof.
  split; [|intros q; apply records_of_remove_other].
  unfold records_of, remove_document.
  induction t as [|d t IH]; cbn [filter]; [reflexivity|].
  destruct (String.eqb (local_file_path d) p) eqn:E; cbn [negb filter];
    [exact IH|].
  rewrite E. exact IH.
Qed.

End LedgerMore.

Lemma stamp_order_is_time_order_witness :
  (strftime_int Scenario.morning < strftime_int Scenario.noon_and_a_quarter)%Z <->
  earlier_second Scenario.morning Scenario.noon_and_a_quarter.
Proof.
  apply (stamp_order_is_time_order Scenario.morning Scenario.noon_and_a_quarter);
    unfold valid_datetime; cbn; lia.
Defined.

Lemma stamp_equal_iff_stored_equal_witness :
  strftime_int Scenario.noon = strftime_int Scenario.noon_and_a_quarter <->
  sql_datetime Scenario.noon = sql_datetime Scenario.noon_and_a_quarter.
Proof.
  apply (stamp_equal_iff_stored_equal Scenario.noon Scenario.noon_and_a_quarter);
    unfold valid_datetime; cbn; lia.
Defined.

Lemma stored_record_suppresses_upload_witness :
  document_loaded "/docs/a.md" Scenario.noon_and_a_quarter
    (get_documents
       (add_document [Scenario.tracked_a]
          (mk_document "/docs/a.md" Scenario.noon_and_a_quarter
                       "custom-documents/a.md-new.json" "{}"))) = true.
Proof.
  apply (stored_record_suppresses_upload [Scenario.tracked_a] "/docs/a.md"
           "custom-documents/a.md-new.json" "{}"
           Scenario.noon_and_a_quarter Scenario.noon_and_a_quarter).
  cbn. lia.
Defined.

Lemma remove_document_forgets_path_witness :
  records_of "/docs/gone.md"
    (remove_document [Scenario.tracked_a; Scenario.tracked_a_noon;
                      Scenario.tracked_gone] "/docs/a.md")
  = records_of "/docs/gone.md"
      [Scenario.tracked_a; Scenario.tracked_a_noon; Scenario.tracked_gone].
Proof.
  apply (proj2 (remove_document_forgets_path
                  [Scenario.tracked_a; Scenario.tracked_a_noon;
                   Scenario.tracked_gone] "/docs/a.md")).
  discriminate.
Defined.

(* ------------------------------------------------------------------ *)
(** ** More on the name [unload_document] sends *)

Section UnloadNameMore.

Lemma split_components_no_slash (s x : string) :
  In x (split "/" s) -> no_slash x = true.
Proof.
  revert x. induction s as [|c s IH]; cbn [split]; intros x.
  - intros [<-|[]]. reflexivity.
  - destruct (Ascii.eqb c "/") eqn:E.
    + intros [<-|H]; [reflexivity|now apply IH].
    + destruct (split "/" s) as [|h t] eqn:S.
      * intros [<-|[]]. unfold no_slash. cbn [all_chars]. now rewrite E.
      * intros [<-|H].
        -- unfold no_slash. cbn [all_chars]. rewrite E. cbn [negb andb].
           apply (IH h). now left.
        -- apply IH. now right.
Qed.

Lemma index_penultimate_in (l : list string) (x : string) :
  index_penultimate l = Some x -> In x l.
Proof.
  unfold index_penultimate. intros H. apply in_rev.
  destruct (rev l) as [|y [|z r]]; try discriminate.
  inversion H. subst. right. now left.
Qed.

(** The rewrite of [unload_document] never fails and settles at once.
    For every location a name comes out ([split('/')[-2]] raises no
    [IndexError]); when the location is rewritten, the name is one of its
    ["/"]-separated components and holds no ["/"] itself; and the name, put
    through the rewrite again, comes out unchanged. *)
Theorem unload_name_settles (loc : string) :
  exists n,
    unload_name loc = Some n /\
    unload_name n = Some n /\
    (re_search_xlsx_sheet loc = true ->
     In n (split "/" loc) /\ no_slash n = true).
Proof.
  unfold unload_name at 1.
  destruct (re_search_xlsx_sheet loc) eqn:E.
  - destruct (index_penultimate_long (split "/" loc)) as [n Hn].
    { apply split_length_slash, re_search_slash, E. }
    exists n. split; [exact Hn|].
    pose proof (index_penultimate_in _ _ Hn) as Hin.
    pose proof (split_components_no_slash _ _ Hin) as Hns.
    split; [|intros _; now split].
    unfold unload_name. destruct (re_search_xlsx_sheet n) eqn:F; [|reflexivity].
    apply re_search_slash in F. congruence.
  - exists loc. split; [reflexivity|]. split; [|discriminate].
    unfold unload_name. now rewrite E.
Qed.

End UnloadNameMore.

(* ------------------------------------------------------------------ *)
(** ** What a phase adds to the log *)

Section LogFacts.
Context {R : Type}.

Lemma bind_snd {A B} (m : M R A) (k : A -> M R B) (w : World R) :
  snd (bind m k w) = snd (k (fst (m w)) (snd (m w))).
Proof. unfold bind. destruct (m w). reflexivity. Qed.

Lemma emits_ret {A} (P : Event -> Prop) (a : A) : emits P (ret (R := R) a).
Proof. intros w. exists []. cbn. now rewrite app_nil_r. Qed.

Lemma emits_bind {A B} (P : Event -> Prop) (m : M R A) (k : A -> M R B) :
  emits P m -> (forall a, emits P (k a)) -> emits P (bind m k).
Proof.
  intros Hm Hk w. rewrite bind_snd.
  destruct (Hm w) as [a1 [E1 F1]].
  destruct (Hk (fst (m w)) (snd (m w))) as [a2 [E2 F2]].
  exists (a1 ++ a2). split.
  - now rewrite E2, E1, app_assoc.
  - apply Forall_app. now split.
Qed.

Lemma emits_emit (P : Event -> Prop) (e : Event) : P e -> emits P (emit (R := R) e).
Proof. intros H w. exists [e]. cbn. split; [reflexivity|]. now constructor. Qed.

Lemma emits_request {A} (P : Event -> Prop) (f : R -> R * A) : emits P (request f).
Proof.
  intros w. exists []. unfold request. destruct (f (remote w)).
  cbn. now rewrite app_nil_r.
Qed.

Lemma emits_read_remote {A} (P : Event -> Prop) (f : R -> A) :
  emits P (read_remote f).
Proof. intros w. exists []. cbn. now rewrite app_nil_r. Qed.

Lemma emits_for_each {A} (P : Event -> Prop) (l : list A) (body : A -> M R unit) :
  (forall x, emits P (body x)) -> emits P (for_each l body).
Proof.
  intros H. induction l as [|x l IH]; cbn [for_each].
  - apply emits_ret.
  - apply emits_bind; [apply H|intros _; exact IH].
Qed.

Lemma emits_get_documents (P : Event -> Prop) : emits P (db_get_documents (R := R)).
Proof. intros w. exists []. cbn. now rewrite app_nil_r. Qed.

Lemma emits_add_document (P : Event -> Prop) (d : AnythingLLMDocument) :
  P (Call_add_document d) -> emits P (db_add_document (R := R) d).
Proof.
  intros H w. exists [Call_add_document d]. cbn. split; [reflexivity|].
  now constructor.
Qed.

Lemma emits_remove_document (P : Event -> Prop) (key : string) :
  P (Call_remove_document key) -> emits P (db_remove_document (R := R) key).
Proof.
  intros H w. exists [Call_remove_document key]. cbn. split; [reflexivity|].
  now constructor.
Qed.

(** What was in the log stays in it. *)
Lemma emits_keeps {A} (P : Event -> Prop) (m : M R A) (w : World R) (e : Event) :
  emits P m -> In e (trace w) -> In e (trace (snd (m w))).
Proof.
  intros H Hin. destruct (H w) as [added [E _]]. rewrite E.
  apply in_or_app. now left.
Qed.

(** Everything in the log after [m] was there before or satisfies [P]. *)
Lemma emits_all {A} (P : Event -> Prop) (m : M R A) (w : World R) :
  emits P m -> Forall P (trace w) -> Forall P (trace (snd (m w))).
Proof.
  intros H Hw. destruct (H w) as [added [E F]]. rewrite E.
  apply Forall_app. now split.
Qed.

End LogFacts.

Ltac emits_step :=
  first
    [ apply emits_ret
    | apply emits_get_documents
    | apply emits_request
    | apply emits_read_remote
    | apply emits_emit; reflexivity
    | apply emits_add_document; reflexivity
    | apply emits_remove_document; reflexivity
    | apply emits_for_each; intros ?
    | apply emits_bind; [|intros ?]
    | match goal with
      | |- emits _ (if ?b then _ else _) => destruct b
      | |- emits _ (match ?x with _ => _ end) => destruct x
      end ].

Section PhaseLogs.
Context {R : Type} (http : Http R) (fs : FileSystem).

Lemma emits_upload_document (P : Event -> Prop) (p : string) :
  P (Call_upload_document p) -> emits P (upload_document http fs p).
Proof.
  intros H. unfold upload_document.
  apply emits_bind; [now apply emits_emit|intros _]. repeat emits_step.
Qed.

Lemma emits_normal_sync (config : AnythingLLMConfig) :
  emits (fun e => is_purge_request e = false) (normal_sync http fs config).
Proof.
  unfold normal_sync, upload_new_documents, upload_one, embed_new_documents,
    remove_embedded_documents, remove_loaded_documents,
    fetch_embedded_workspace_documents, embed_new_document, unembed_document,
    unload_document.
  repeat first [apply emits_upload_document; reflexivity | emits_step].
Qed.

Lemma emits_purge_mode (args : Args) :
  emits (fun e => is_purge_request e = true) (purge_mode http args).
Proof.
  unfold purge_mode, fetch_embedded_workspace_documents.
  repeat emits_step.
Qed.

(** A run sends the requests of its mode and no others.  In purge mode
    the log holds nothing but the two purge requests: no upload, embed,
    unembed or unload call is made and the ledger is asked for no insertion
    and no deletion (the table and the workspace are still read; reads are
    not in the log).  A normal run sends neither purge request. *)
Theorem calls_follow_mode (args : Args) (config : AnythingLLMConfig)
    (fault : bool) (file : option Table) (r : R) :
  Forall (fun e => is_purge_request e = purge args)
         (calls (main http fs args config fault file r)).
Proof.
  unfold main.
  destruct (authenticate http r); cbn [negb]; [|constructor].
  destruct (initialize_database fault (if force args then None else file))
    as [[|] [t|]]; cbn [negb calls]; try constructor.
  destruct (purge args).
  - pose proof (emits_all _ _ (mk_world t r []) (emits_purge_mode args)
                  (Forall_nil _)) as H.
    destruct (purge_mode http args (mk_world t r [])). exact H.
  - pose proof (emits_all _ _ (mk_world t r []) (emits_normal_sync config)
                  (Forall_nil _)) as H.
    destruct (normal_sync http fs config (mk_world t r [])). exact H.
Qed.

End PhaseLogs.

(* ------------------------------------------------------------------ *)
(** ** Phase 1, counted *)

Section UploadsMore.
Context {R : Type} (http : Http R) (fs : FileSystem).

Lemma upload_one_count (loaded : list AnythingLLMDocument) (p q : string)
    (w : World R) :
  count_calls (is_upload_of p) (trace (snd (upload_one http fs loaded q w))) =
  (count_calls (is_upload_of p) (trace w) +
   if document_loaded q (st_mtime fs q) loaded then 0
   else if string_dec q p then 1 else 0)%nat.
Proof.
  rewrite upload_one_run. unfold count_calls.
  destruct (document_loaded q (st_mtime fs q) loaded); [lia|].
  assert (E : String.eqb q p = if string_dec q p then true else false).
  { destruct (string_dec q p) as [->|Hne];
      [apply String.eqb_refl|now apply String.eqb_neq]. }
  destruct (upload_answer http fs (remote w) q); cbn [trace];
    rewrite filter_app, length_app; cbn [filter is_upload_of]; rewrite E;
    destruct (string_dec q p); cbn; lia.
Qed.

(** Phase 1 decides once per path and uploads once per occurrence: the
    tracked records are read before the loop and not again, so a path the
    change test lets through gets as many upload calls as the desired list
    names it, whatever the earlier calls answered; a path the test holds
    back gets none. *)
Theorem uploads_per_occurrence (local_documents : list string)
    (loaded_documents : list AnythingLLMDocument) (t : Table) (r : R) (p : string) :
  count_calls (is_upload_of p)
    (trace (snd (upload_new_documents http fs local_documents loaded_documents
                   (mk_world t r [])))) =
  if document_loaded p (st_mtime fs p) loaded_documents then 0%nat
  else count_occ string_dec local_documents p.
Proof.
  unfold upload_new_documents.
  assert (G : forall l w,
             count_calls (is_upload_of p)
               (trace (snd (for_each l (upload_one http fs loaded_documents) w))) =
             (count_calls (is_upload_of p) (trace w) +
              if document_loaded p (st_mtime fs p) loaded_documents then 0
              else count_occ string_dec l p)%nat).
  { induction l as [|q l IH]; intros w.
    - cbn. destruct (document_loaded _ _ _); lia.
    - rewrite for_each_cons, IH, upload_one_count. cbn [count_occ].
      destruct (string_dec q p) as [->|Hne].
      + destruct (document_loaded p (st_mtime fs p) loaded_documents); lia.
      + destruct (document_loaded q (st_mtime fs q) loaded_documents);
          destruct (document_loaded p (st_mtime fs p) loaded_documents); lia. }
  rewrite G. reflexivity.
Qed.

Lemma upload_one_table (loaded : list AnythingLLMDocument) (q : string)
    (w : World R) :
  db (snd (upload_one http fs loaded q w)) = db w \/
  exists loc json,
    db (snd (upload_one http fs loaded q w)) =
    db w ++ [mk_document q (sql_datetime (st_mtime fs q)) loc json].
Proof.
  rewrite upload_one_run.
  destruct (document_loaded q (st_mtime fs q) loaded); [now left|].
  destruct (upload_answer http fs (remote w) q) as [u|]; [|now left].
  right. exists (location u), (json_dumps u). reflexivity.
Qed.

(** Phase 1 only appends to the table: the rows it found are still there,
    unchanged and in place, and every row after them is a record of a
    desired path stamped with that file's modification time, to the
    second. *)
Theorem phase1_only_appends (local_documents : list string)
    (loaded_documents : list AnythingLLMDocument) (t : Table) (r : R) :
  exists added,
    db (snd (upload_new_documents http fs local_documents loaded_documents
               (mk_world t r []))) = t ++ added /\
    Forall (fun d => In (local_file_path d) local_documents /\
                     upload_timestamp d = sql_datetime (st_mtime fs (local_file_path d)))
           added.
Proof.
  unfold upload_new_documents.
  assert (G : forall l w, exists added,
             db (snd (for_each l (upload_one http fs loaded_documents) w))
             = db w ++ added /\
             Forall (fun d => In (local_file_path d) l /\
                              upload_timestamp d
                              = sql_datetime (st_mtime fs (local_file_path d)))
                    added).
  { induction l as [|q l IH]; intros w.
    - exists []. cbn. split; [now rewrite app_nil_r|constructor].
    - rewrite for_each_cons.
      destruct (IH (snd (upload_one http fs loaded_documents q w)))
        as [added [E F]].
      assert (F' : Forall (fun d => In (local_file_path d) (q :: l) /\
                                    upload_timestamp d
                                    = sql_datetime (st_mtime fs (local_file_path d)))
                          added).
      { eapply Forall_impl; [|exact F]. intros d [H1 H2]. split; [now right|exact H2]. }
      destruct (upload_one_table loaded_documents q w) as [U|[loc [json U]]];
        rewrite E, U.
      + exists added. now split.
      + exists (mk_document q (sql_datetime (st_mtime fs q)) loc json :: added).
        rewrite <- app_assoc. split; [reflexivity|].
        constructor; [|exact F']. cbn. split; [now left|reflexivity]. }
  destruct (G local_documents (mk_world t r [])) as [added H].
  exists added. exact H.
Qed.

(** With [--force] the run starts from an empty table, so every file of
    the scan is uploaded again, whatever the tracking file held. *)
Theorem force_uploads_every_file (args : Args) (config : AnythingLLMConfig)
    (file : option Table) (r : R) (p : string) :
  force args = true -> purge args = false ->
  authenticate http r = true ->
  In p (fetch_local_documents config fs) ->
  In (Call_upload_document p) (calls (main http fs args config false file r)).
Proof.
  intros Hf Hp Ha Hin. unfold main. rewrite Ha, Hf, Hp.
  cbn [negb initialize_database].
  destruct (normal_sync http fs config (mk_world [] r [])) as [u w] eqn:N.
  cbn [calls].
  assert (E : w = snd (normal_sync http fs config (mk_world [] r [])))
    by now rewrite N.
  rewrite E. unfold normal_sync.
  rewrite bind_snd. cbv beta. rewrite bind_snd. cbv beta.
  eapply emits_keeps.
  - unfold embed_new_documents, remove_embedded_documents, remove_loaded_documents,
      fetch_embedded_workspace_documents, embed_new_document, unembed_document,
      unload_document.
    instantiate (1 := fun _ => True). repeat emits_step.
  - unfold upload_new_documents, db_get_documents. cbn [fst snd].
    apply upload_loop_calls. right. split; [exact Hin|reflexivity].
Qed.

End UploadsMore.

Lemma force_uploads_every_file_witness :
  In (Call_upload_document "/docs/a.md")
     (calls (main Scenario.ideal (Scenario.one_file Scenario.noon)
                  (mk_args true false false) Scenario.config false
                  (Some [Scenario.tracked_a_noon]) [])).
Proof.
  apply (force_uploads_every_file Scenario.ideal (Scenario.one_file Scenario.noon)
           (mk_args true false false) Scenario.config
           (Some [Scenario.tracked_a_noon]) [] "/docs/a.md");
    try reflexivity.
  left. reflexivity.
Defined.

(* ------------------------------------------------------------------ *)
(** ** The client's upload, case by case *)

Section UploadAnswers.
Context {R : Type} (http : Http R) (fs : FileSystem).

(** [upload_document] answers with a document exactly when the file is not
    empty, the text after the last dot of its path is a supported type,
    the server answers 200 and reports success; the document is then the
    one of the response.  For an empty file or an unsupported type no
    request is sent: the server stays as it was. *)
Theorem upload_document_answers (r : R) (p : string) :
  (forall u,
     upload_answer http fs r p = Some u <->
     getsize fs p <> 0%Z /\
     In (index_last (split "." p)) supported_file_types /\
     up_status_code (snd (post_document_upload http r p)) = 200%Z /\
     up_success (snd (post_document_upload http r p)) = true /\
     u = up_document (snd (post_document_upload http r p))) /\
  (getsize fs p = 0%Z \/ ~ In (index_last (split "." p)) supported_file_types ->
   upload_answer http fs r p = None /\ upload_server http fs r p = r).
Proof.
  unfold upload_answer, upload_server, upload_document, bind, emit, request, ret,
    not_in.
  cbn -[supported_file_types split index_last].
  destruct (getsize fs p =? 0)%Z eqn:S.
  - apply Z.eqb_eq in S. cbn. split.
    + intros u. split; [discriminate|]. intros [H _]. contradiction.
    + intros _. now split.
  - apply Z.eqb_neq in S.
    destruct (list_in (index_last (split "." p)) supported_file_types) eqn:T;
      cbn -[supported_file_types split index_last].
    + apply list_in_iff in T.
      destruct (post_document_upload http r p) as [r' resp].
      cbn -[supported_file_types split index_last].
      split; [|intros [H|H]; contradiction].
      intros u. destruct (up_status_code resp =? 200)%Z eqn:C;
        cbn -[supported_file_types split index_last].
      * apply Z.eqb_eq in C. destruct (up_success resp) eqn:U;
          cbn -[supported_file_types split index_last].
        -- split.
           ++ intros H. inversion H. now repeat split.
           ++ intros [_ [_ [_ [_ ->]]]]. reflexivity.
        -- split; [discriminate|]. intros [_ [_ [_ [H _]]]]. discriminate.
      * apply Z.eqb_neq in C. split; [discriminate|].
        intros [_ [_ [H _]]]. contradiction.
    + assert (T' : ~ In (index_last (split "." p)) supported_file_types).
      { intros H. apply list_in_iff in H. congruence. }
      split.
      * intros u. split; [discriminate|]. intros [_ [H _]]. contradiction.
      * intros _. now split.
Qed.

End UploadAnswers.

(* ------------------------------------------------------------------ *)
(** ** Phase 2: embedding *)

Section EmbeddingMore.
Context {R : Type} (http : Http R).

Lemma embed_new_document_run (loc : string) (w : World R) :
  snd (embed_new_document http loc w) =
  mk_world (db w) (fst (post_embeddings_adds http (remote w) [loc]))
           (trace w ++ [Call_embed_new_document loc]).
Proof.
  unfold embed_new_document, bind, emit, request, ret. cbn.
  destruct (post_embeddings_adds http (remote w) [loc]). reflexivity.
Qed.

Lemma embed_loop (loc : string) (l : list string) (w : World R) :
  count_calls (is_embed_of loc)
    (trace (snd (for_each l (embed_new_document http) w))) =
  (count_calls (is_embed_of loc) (trace w) + count_occ string_dec l loc)%nat /\
  db (snd (for_each l (embed_new_document http) w)) = db w.
Proof.
  revert w. induction l as [|x l IH]; intros w.
  - cbn. split; [lia|reflexivity].
  - rewrite for_each_cons. destruct (IH (snd (embed_new_document http x w))) as [C D].
    rewrite C, D, embed_new_document_run. cbn [trace db]. split; [|reflexivity].
    unfold count_calls. rewrite filter_app, length_app. cbn [filter is_embed_of].
    cbn [count_occ]. destruct (string_dec x loc) as [->|Hne].
    + rewrite String.eqb_refl. cbn. lia.
    + apply String.eqb_neq in Hne. rewrite Hne. cbn. lia.
Qed.

Lemma count_occ_map_filter (f : AnythingLLMDocument -> bool)
    (l : list AnythingLLMDocument) (loc : string) :
  count_occ string_dec (map anythingllm_document_location (filter f l)) loc =
  length (filter (fun d => f d && String.eqb (anythingllm_document_location d) loc) l).
Proof.
  induction l as [|d l IH]; cbn [filter map count_occ]; [reflexivity|].
  destruct (f d); cbn [andb map count_occ filter]; [|exact IH].
  destruct (string_dec (anythingllm_document_location d) loc) as [E|Hne].
  - rewrite E, String.eqb_refl. cbn. now rewrite IH.
  - apply String.eqb_neq in Hne. rewrite Hne. exact IH.
Qed.

(** Phase 2 sends one embed call for each tracked record whose location
    is missing from the embedded list, desired or not, and none for a
    location in the list; a failed call stops nothing, and the table is
    not touched. *)
Theorem embeds_per_missing_record (loaded_documents : list AnythingLLMDocument)
    (embedded_documents : list string) (t : Table) (r : R) (loc : string) :
  count_calls (is_embed_of loc)
    (trace (snd (embed_new_documents http loaded_documents embedded_documents
                   (mk_world t r [])))) =
  (if list_in loc embedded_documents then 0%nat
   else length (filter (fun d => String.eqb (anythingllm_document_location d) loc)
                       loaded_documents)) /\
  db (snd (embed_new_documents http loaded_documents embedded_documents
             (mk_world t r []))) = t.
Proof.
  unfold embed_new_documents.
  destruct (embed_loop loc
              (map anythingllm_document_location
                 (filter (fun doc => not_in (anythingllm_document_location doc)
                                            embedded_documents)
                         loaded_documents))
              (mk_world t r [])) as [C D].
  rewrite C, D. split; [|reflexivity]. cbn [trace count_calls filter length Nat.add].
  rewrite count_occ_map_filter. clear C D.
  destruct (list_in loc embedded_documents) eqn:L.
  - induction loaded_documents as [|d l IH]; cbn [filter]; [reflexivity|].
    destruct (String.eqb (anythingllm_document_location d) loc) eqn:E.
    + apply String.eqb_eq in E. unfold not_in. rewrite E, L. cbn. exact IH.
    + rewrite andb_false_r. exact IH.
  - f_equal. apply filter_ext. intros d.
    destruct (String.eqb (anythingllm_document_location d) loc) eqn:E.
    + apply String.eqb_eq in E. unfold not_in. rewrite E, L. reflexivity.
    + apply andb_false_r.
Qed.

End EmbeddingMore.

(* ------------------------------------------------------------------ *)
(** ** Phase 4, counted *)

Section UnloadingMore.
Context {R : Type} (http : Http R).

Lemma unload_step_run (loc : string) (w : World R) :
  snd (bind (unload_document http loc)
            (fun ok => if ok then db_remove_document loc else ret tt) w) =
  if unload_answer http (remote w) loc then
    mk_world (remove_document (db w) loc) (unload_server http (remote w) loc)
      (trace w ++ [Call_unload_document loc;
                   Request_remove_documents
                     [match unload_name loc with Some n => n | None => loc end];
                   Call_remove_document loc])
  else
    mk_world (db w) (unload_server http (remote w) loc)
      (trace w ++ [Call_unload_document loc;
                   Request_remove_documents
                     [match unload_name loc with Some n => n | None => loc end]]).
Proof.
  unfold bind. rewrite unload_document_answer.
  destruct (unload_answer http (remote w) loc); [|reflexivity].
  unfold db_remove_document, bind, emit. cbn. now rewrite <- app_assoc.
Qed.

Lemma unload_loop_count (loc : string) (l : list string) (w : World R) :
  count_calls (is_unload_of loc)
    (trace (snd (for_each l
                   (fun loc => bind (unload_document http loc)
                                    (fun ok => if ok then db_remove_document loc
                                               else ret tt)) w))) =
  (count_calls (is_unload_of loc) (trace w) + count_occ string_dec l loc)%nat.
Proof.
  revert w. induction l as [|x l IH]; intros w.
  - cbn. lia.
  - rewrite for_each_cons, IH, unload_step_run. unfold count_calls.
    assert (E : String.eqb x loc = if string_dec x loc then true else false).
    { destruct (string_dec x loc) as [->|Hne];
        [apply String.eqb_refl|now apply String.eqb_neq]. }
    cbn [count_occ].
    destruct (unload_answer http (remote w) x); cbn [trace];
      rewrite filter_app, length_app; cbn [filter is_unload_of]; rewrite E;
      destruct (string_dec x loc); cbn; lia.
Qed.

(** Phase 4 sends one unload call for each tracked record whose local path
    is not desired, and none on behalf of a record whose path is desired;
    a failed call stops nothing. *)
Theorem unloads_per_undesired_record (local_documents : list string)
    (loaded_documents : list AnythingLLMDocument) (t : Table) (r : R) (loc : string) :
  count_calls (is_unload_of loc)
    (trace (snd (remove_loaded_documents http local_documents loaded_documents
                   (mk_world t r [])))) =
  length (filter (fun d => not_in (local_file_path d) local_documents
                           && String.eqb (anythingllm_document_location d) loc)
                 loaded_documents).
Proof.
  unfold remove_loaded_documents.
  rewrite unload_loop_count, count_occ_map_filter. reflexivity.
Qed.

Lemma failed_unload_loop (l : list string) (w : World R) :
  (forall r loc, unload_answer http r loc = false) ->
  db (snd (for_each l
             (fun loc => bind (unload_document http loc)
                              (fun ok => if ok then db_remove_document loc
                                         else ret tt)) w)) = db w /\
  forall key,
    In (Call_remove_document key)
       (trace (snd (for_each l
                      (fun loc => bind (unload_document http loc)
                                       (fun ok => if ok then db_remove_document loc
                                                  else ret tt)) w))) ->
    In (Call_remove_document key) (trace w).
Proof.
  intros Hfail. revert w. induction l as [|x l IH]; intros w.
  - split; [reflexivity|trivial].
  - rewrite for_each_cons, unload_step_run, Hfail.
    match goal with |- context [for_each l _ ?w1] => destruct (IH w1) as [D T] end.
    split; [exact D|].
    intros key H. apply T in H. cbn [trace] in H.
    apply in_app_or in H. destruct H as [H|[H|[H|[]]]];
      [exact H|discriminate|discriminate].
Qed.

(** When every unload call fails, phase 4 leaves the table as it is and
    asks the ledger for no deletion. *)
Theorem failed_unloads_change_nothing (local_documents : list string)
    (loaded_documents : list AnythingLLMDocument) (t : Table) (r : R) :
  (forall r' loc, unload_answer http r' loc = false) ->
  db (snd (remove_loaded_documents http local_documents loaded_documents
             (mk_world t r []))) = t /\
  forall key,
    ~ In (Call_remove_document key)
         (trace (snd (remove_loaded_documents http local_documents loaded_documents
                        (mk_world t r [])))).
Proof.
  intros Hfail. unfold remove_loaded_documents.
  match goal with |- context [for_each ?l _ _] =>
    destruct (failed_unload_loop l (mk_world t r []) Hfail) as [D T] end.
  split; [exact D|]. intros key H. exact (T key H).
Qed.

End UnloadingMore.

Lemma failed_unloads_change_nothing_witness :
  db (snd (remove_loaded_documents
             (Scenario.scripted (Scenario.mk_script true 500 200 200))
             [] [Scenario.tracked_gone]
             (mk_world [Scenario.tracked_gone] [] []))) = [Scenario.tracked_gone] /\
  forall key,
    ~ In (Call_remove_document key)
         (trace (snd (remove_loaded_documents
                        (Scenario.scripted (Scenario.mk_script true 500 200 200))
                        [] [Scenario.tracked_gone]
                        (mk_world [Scenario.tracked_gone] [] [])))).
Proof.
  apply (failed_unloads_change_nothing
           (Scenario.scripted (Scenario.mk_script true 500 200 200))
           [] [Scenario.tracked_gone] [Scenario.tracked_gone] []).
  intros r' loc. unfold unload_answer.
  destruct (unload_name_total loc) as [n Hn].
  rewrite (unload_document_run _ loc n _ Hn). reflexivity.
Defined.

Lemma phase4_keeps_table_witness :
  db (snd (remove_loaded_documents Scenario.ideal [] [Scenario.tracked_gone]
             (mk_world [Scenario.tracked_gone] [] []))) = [Scenario.tracked_gone].
Proof.
  apply (phase4_keeps_table Scenario.ideal [] [Scenario.tracked_gone]
           (mk_world [Scenario.tracked_gone] [] [])).
  intros d d' [<-|[]] [<-|[]]. discriminate.
Defined.

(* ------------------------------------------------------------------ *)
(** ** Purge mode, to the end *)

Section PurgingMore.
Context {R : Type} (http : Http R) (fs : FileSystem).

Lemma purge_mode_result (args : Args) (w : World R) :
  db (snd (purge_mode http args w)) = db w /\
  fst (purge_mode http args w) =
  match list_set (get_workspace_docpaths http (remote w)) with
  | [] => true
  | e :: es => (snd (post_purge_embeddings http (remote w) (e :: es)) =? 200)%Z
  end /\
  forall deletes,
    In (Request_purge_embeddings deletes) (trace (snd (purge_mode http args w))) ->
    In (Request_purge_embeddings deletes) (trace w) \/
    (deletes = list_set (get_workspace_docpaths http (remote w)) /\ deletes <> []).
Proof.
  unfold purge_mode, bind, fetch_embedded_workspace_documents, read_remote,
    emit, request, ret, db_get_documents.
  cbn -[In get_documents].
  destruct (list_set (get_workspace_docpaths http (remote w))) as [|e es];
    cbn -[In get_documents].
  - destruct (purge_raw args); cbn -[In get_documents].
    + destruct (get_documents (db w)) as [|d ds]; cbn -[In get_documents].
      * repeat split. intros deletes H. now left.
      * destruct (delete_remove_documents http (remote w) _). cbn -[In get_documents].
        repeat split. intros deletes H. apply in_app_or in H.
        destruct H as [H|[H|[]]]; [now left|discriminate].
    + repeat split. intros deletes H. now left.
  - destruct (post_purge_embeddings http (remote w) (e :: es)) as [r1 st].
    cbn -[In get_documents].
    assert (X : forall deletes (rest : list Event),
               (forall x, In x rest -> x <> Request_purge_embeddings deletes) ->
               In (Request_purge_embeddings deletes)
                  ((trace w ++ [Request_purge_embeddings (e :: es)]) ++ rest) ->
               In (Request_purge_embeddings deletes) (trace w) \/
               (deletes = e :: es /\ deletes <> [])).
    { intros deletes rest Hrest H. apply in_app_or in H. destruct H as [H|H].
      - apply in_app_or in H. destruct H as [H|[H|[]]]; [now left|].
        right. inversion H. split; [reflexivity|discriminate].
      - exfalso. exact (Hrest _ H eq_refl). }
    destruct (st =? 200)%Z; cbn -[In get_documents].
    + destruct (purge_raw args); cbn -[In get_documents].
      * destruct (get_documents (db w)) as [|d ds]; cbn -[In get_documents].
        -- repeat split. intros deletes H. apply (X deletes []); [intros x []|].
           now rewrite app_nil_r.
        -- destruct (delete_remove_documents http r1 _). cbn -[In get_documents].
           repeat split. intros deletes H.
           apply (X deletes [Request_purge_raw
                               (anythingllm_document_location d
                                :: map anythingllm_document_location ds)]);
             [intros x [<-|[]]; discriminate|exact H].
      * repeat split. intros deletes H. apply (X deletes []); [intros x []|].
        now rewrite app_nil_r.
    + repeat split. intros deletes H. apply (X deletes []); [intros x []|].
      now rewrite app_nil_r.
Qed.

(** How a purge ends.  The tracking file is removed when the workspace
    has nothing embedded or the purge of the embeddings is answered 200,
    with or without [--purge-raw] and whatever the raw deletion answers;
    otherwise it is left with the table it had.  The table's rows are
    never changed. *)
Theorem purge_outcome (args : Args) (config : AnythingLLMConfig) (fault : bool)
    (file : option Table) (r : R) (t : Table) :
  purge args = true -> authenticate http r = true ->
  table_of_run args fault file = Some t ->
  db_file (main http fs args config fault file r) =
  match list_set (get_workspace_docpaths http r) with
  | [] => None
  | e :: es =>
      if (snd (post_purge_embeddings http r (e :: es)) =? 200)%Z
      then None else Some t
  end.
Proof.
  intros Hp Ha Ht. unfold main, table_of_run in *. rewrite Ha, Hp. cbn [negb].
  destruct (initialize_database fault (if force args then None else file))
    as [ok file'] eqn:I.
  cbn [snd] in Ht. subst file'.
  assert (ok = true) as ->.
  { unfold initialize_database in I.
    destruct (if force args then None else file); [now inversion I|].
    destruct fault; inversion I; reflexivity. }
  cbn [negb].
  destruct (purge_mode_result args (mk_world t r [])) as [D [F _]].
  destruct (purge_mode http args (mk_world t r [])) as [cleared w].
  cbn [fst snd db remote] in D, F. cbn [db_file]. rewrite F, D.
  destruct (list_set (get_workspace_docpaths http r)); [reflexivity|].
  destruct (snd (post_purge_embeddings http r (s :: l)) =? 200)%Z; reflexivity.
Qed.

(** The purge of the embeddings asks for the docpaths the workspace
    lists, each once, and is not sent when the workspace lists none. *)
Theorem purge_embeddings_scope (args : Args) (config : AnythingLLMConfig)
    (fault : bool) (file : option Table) (r : R) (deletes : list string) :
  In (Request_purge_embeddings deletes)
     (calls (main http fs args config fault file r)) ->
  deletes = list_set (get_workspace_docpaths http r) /\ deletes <> [] /\
  NoDup deletes.
Proof.
  intros H.
  assert (G : deletes = list_set (get_workspace_docpaths http r) /\ deletes <> []).
  { revert H. unfold main.
    destruct (authenticate http r); cbn [negb]; [|intros []].
    destruct (initialize_database fault (if force args then None else file))
      as [[|] [t|]]; cbn [negb calls]; try (intros []).
    destruct (purge args) eqn:Hp.
    - destruct (purge_mode_result args (mk_world t r [])) as [_ [_ T]].
      destruct (purge_mode http args (mk_world t r [])) as [cleared w].
      cbn [calls]. intros H. destruct (T deletes H) as [[]|G]. exact G.
    - pose proof (emits_all _ _ (mk_world t r []) (emits_normal_sync http fs config)
                    (Forall_nil _)) as F.
      destruct (normal_sync http fs config (mk_world t r [])) as [u w].
      cbn [calls]. intros H. cbn [snd] in F.
      rewrite Forall_forall in F. specialize (F _ H). discriminate. }
  destruct G as [G1 G2]. repeat split; [exact G1|exact G2|].
  rewrite G1. apply NoDup_nodup.
Qed.

End PurgingMore.

Lemma purge_outcome_witness :
  db_file (main (Scenario.scripted (Scenario.mk_script true 200 200 500))
                Scenario.no_files (mk_args false true false) Scenario.config false
                (Some [Scenario.tracked_a]) [Scenario.loc_a]) = None.
Proof.
  exact (purge_outcome (Scenario.scripted (Scenario.mk_script true 200 200 500))
           Scenario.no_files (mk_args false true false) Scenario.config false
           (Some [Scenario.tracked_a]) [Scenario.loc_a] [Scenario.tracked_a]
           eq_refl eq_refl eq_refl).
Defined.

Lemma purge_embeddings_scope_witness :
  [Scenario.loc_a] = list_set (get_workspace_docpaths Scenario.ideal
                                 [Scenario.loc_a; Scenario.loc_a]) /\
  [Scenario.loc_a] <> [] /\ NoDup [Scenario.loc_a].
Proof.
  apply (purge_embeddings_scope Scenario.ideal Scenario.no_files
           Scenario.purge_with_raw Scenario.config false
           (Some [Scenario.tracked_a]) [Scenario.loc_a; Scenario.loc_a]
           [Scenario.loc_a]).
  vm_compute. left. reflexivity.
Defined.

(* ------------------------------------------------------------------ *)
(** ** The listing of uploaded documents *)

Section ListingFacts.
Import Listing.

Lemma Item_induction (P : Item -> Prop) :
  (forall type name items, Forall P items -> P (mk_item type name items)) ->
  forall item, P item.
Proof.
  intros H. fix IH 1. intros [type name items]. apply H.
  induction items as [|child rest IHrest]; constructor; [apply IH|exact IHrest].
Qed.

Lemma parse_folder (name : string) (items : list Item) (loaded : list string) :
  parse_loaded_document (mk_item "folder" name items) loaded =
  fold_left (fun l document => parse_loaded_document document l) items loaded.
Proof.
  cbn [parse_loaded_document]. change (String.eqb "folder" "folder") with true.
  cbv iota. revert loaded.
  induction items as [|child rest IH]; intros loaded; [reflexivity|].
  cbn [fold_left]. apply IH.
Qed.

Lemma fold_parse_appends (items : list Item) (loaded : list string) :
  Forall (fun item => forall l,
            parse_loaded_document item l = l ++ parse_loaded_document item [])
         items ->
  fold_left (fun l document => parse_loaded_document document l) items loaded =
  loaded ++ fold_left (fun l document => parse_loaded_document document l) items [].
Proof.
  intros H. revert loaded. induction H as [|child rest Hc Hr IH]; intros loaded.
  - cbn. now rewrite app_nil_r.
  - cbn [fold_left]. rewrite IH, (IH (parse_loaded_document child [])), Hc.
    cbn [app]. now rewrite app_assoc.
Qed.

Lemma parse_appends (item : Item) (loaded : list string) :
  parse_loaded_document item loaded = loaded ++ parse_loaded_document item [].
Proof.
  revert loaded. induction item as [type name items IH] using Item_induction.
  intros loaded. destruct (String.eqb type "folder") eqn:F.
  - apply String.eqb_eq in F. subst type. rewrite !parse_folder.
    now apply fold_parse_appends.
  - cbn [parse_loaded_document]. rewrite F.
    destruct (String.eqb type "file"); cbn; [reflexivity|now rewrite app_nil_r].
Qed.

(** [parse_loaded_document] only appends, and what it appends does not
    depend on what the list held; the names of a folder are the names of
    its entries, one entry after the other, as
    [fetch_loaded_documents_from_anythingllm] lists them. *)
Theorem listing_composes (item : Item) (name : string) (items : list Item)
    (loaded : list string) :
  parse_loaded_document item loaded = loaded ++ parse_loaded_document item [] /\
  parse_loaded_document (mk_item "folder" name items) loaded =
  loaded ++ fetch_loaded_documents_from_anythingllm items /\
  fetch_loaded_documents_from_anythingllm (item :: items) =
  parse_loaded_document item [] ++ fetch_loaded_documents_from_anythingllm items.
Proof.
  split; [apply parse_appends|]. unfold fetch_loaded_documents_from_anythingllm.
  assert (A : forall l ld,
             fold_left (fun l document => parse_loaded_document document l) l ld =
             ld ++ fold_left (fun l document => parse_loaded_document document l) l []).
  { intros l ld. apply fold_parse_appends. apply Forall_forall.
    intros child _ l0. apply parse_appends. }
  split.
  - rewrite parse_folder. apply A.
  - cbn [fold_left]. apply A.
Qed.

Lemma fold_parse_in (n : string) (items : list Item) (loaded : list string) :
  Forall (fun item => forall l,
            In n (parse_loaded_document item l) <-> In n l \/ file_node n item)
         items ->
  In n (fold_left (fun l document => parse_loaded_document document l) items loaded)
  <-> In n loaded \/ exists child, In child items /\ file_node n child.
Proof.
  intros H. revert loaded. induction H as [|child rest Hc Hr IH]; intros loaded.
  - cbn. split; [now left|]. intros [H|[c [[] _]]]. exact H.
  - cbn [fold_left]. rewrite IH, Hc. split.
    + intros [[H|H]|[c [Hin Hn]]].
      * now left.
      * right. exists child. split; [now left|exact H].
      * right. exists c. split; [now right|exact Hn].
    + intros [H|[c [[<-|Hin] Hn]]].
      * left. now left.
      * left. now right.
      * right. now exists c.
Qed.

Lemma parse_in (n : string) (item : Item) (loaded : list string) :
  In n (parse_loaded_document item loaded) <-> In n loaded \/ file_node n item.
Proof.
  revert loaded. induction item as [type name items IH] using Item_induction.
  intros loaded. destruct (String.eqb type "folder") eqn:F.
  - apply String.eqb_eq in F. subst type.
    rewrite parse_folder, (fold_parse_in n items loaded IH). split.
    + intros [H|[c [Hin Hn]]]; [now left|]. right. now apply (file_below n name items c).
    + intros [H|H]; [now left|]. right. inversion H; subst. now exists child.
  - cbn [parse_loaded_document]. rewrite F.
    destruct (String.eqb type "file") eqn:G.
    + apply String.eqb_eq in G. subst type. rewrite in_app_iff. cbn [In]. split.
      * intros [H|[<-|[]]]; [now left|]. right. constructor.
      * intros [H|H]; [now left|]. right. left. now inversion H.
    + split; [now left|]. intros [H|H]; [exact H|].
      inversion H; subst; cbn in F, G; discriminate.
Qed.

(** The listing holds exactly the names of the entries of type [file],
    at any depth below entries of type [folder]: no folder name, and
    nothing from below an entry of another type. *)
Theorem listing_is_the_file_nodes (items : list Item) (n : string) :
  In n (fetch_loaded_documents_from_anythingllm items) <->
  exists item, In item items /\ file_node n item.
Proof.
  unfold fetch_loaded_documents_from_anythingllm.
  rewrite fold_parse_in.
  - split; [intros [[]|H]; exact H|intros H; now right].
  - apply Forall_forall. intros item _ l. apply parse_in.
Qed.

End ListingFacts.


(* ------------------------------------------------------------------ *)
(** ** Loading the configuration *)

Section ConfigFacts.
Import ConfigFile.
Variable Yaml : Type.

Lemma require_passes (config : Value Yaml) (key message : string)
    (rest : ConfigError + Loaded Yaml) (loaded : Loaded Yaml) :
  require Yaml config key message rest = inr loaded ->
  contains Yaml config key = Some true /\ rest = inr loaded.
Proof.
  unfold require. destruct (contains Yaml config key) as [[|]|]; try discriminate.
  intros H. now split.
Qed.

(** [load_config] returns a configuration exactly when the file exists
    and holds a mapping with all five keys, and the configuration then
    carries the five values of the file; [FileNotFoundError] is raised
    exactly when the file does not exist. *)
Theorem load_config_validates (config_file : ConfigFileState Yaml) :
  (forall loaded,
     load_config Yaml config_file = inr loaded <->
     exists config,
       config_file = Parsed (Dictionary config) /\
       config "api-key"%string = Some (loaded_api_key Yaml loaded) /\
       config "file-paths"%string = Some (loaded_file_paths Yaml loaded) /\
       config "directory-excludes"%string
       = Some (loaded_directory_excludes Yaml loaded) /\
       config "file-excludes"%string = Some (loaded_file_excludes Yaml loaded) /\
       config "workspace-slug"%string = Some (loaded_workspace_slug Yaml loaded)) /\
  (load_config Yaml config_file = inl FileNotFoundError <-> config_file = Absent).
Proof.
  split.
  - intros loaded. split.
    + destruct config_file as [| |value]; try discriminate. cbn [load_config].
      intros H.
      apply require_passes in H. destruct H as [_ H].
      apply require_passes in H. destruct H as [_ H].
      apply require_passes in H. destruct H as [_ H].
      apply require_passes in H. destruct H as [_ H].
      apply require_passes in H. destruct H as [_ H].
      destruct value as [| |s|has|config]; try discriminate.
      exists config. split; [reflexivity|].
      unfold construct, index in H.
      destruct (config "api-key"%string) eqn:K1; [|discriminate].
      destruct (config "file-paths"%string) eqn:K2; [|discriminate].
      destruct (config "directory-excludes"%string) eqn:K3; [|discriminate].
      destruct (config "file-excludes"%string) eqn:K4; [|discriminate].
      destruct (config "workspace-slug"%string) eqn:K5; [|discriminate].
      inversion H. subst loaded. cbn. repeat split; reflexivity.
    + intros [config [-> [K1 [K2 [K3 [K4 K5]]]]]].
      cbn [load_config]. unfold require, contains, construct, index.
      rewrite K1, K2, K3, K4, K5. now destruct loaded.
  - split; [|now intros ->].
    destruct config_file as [| |value]; [reflexivity|discriminate|].
    cbn [load_config]. unfold require, construct, index.
    destruct (contains Yaml value "api-key") as [[|]|]; try discriminate.
    destruct (contains Yaml value "file-paths") as [[|]|]; try discriminate.
    destruct (contains Yaml value "directory-excludes") as [[|]|]; try discriminate.
    destruct (contains Yaml value "file-excludes") as [[|]|]; try discriminate.
    destruct (contains Yaml value "workspace-slug") as [[|]|]; try discriminate.
    destruct value as [| |s|has|config]; try discriminate.
    destruct (config "api-key"%string); [|discriminate].
    destruct (config "file-paths"%string); [|discriminate].
    destruct (config "directory-excludes"%string); [|discriminate].
    destruct (config "file-excludes"%string); [|discriminate].
    destruct (config "workspace-slug"%string); discriminate.
Qed.

Lemma contains_container (value : Value Yaml) (key key' : string) (b : bool) :
  contains Yaml value key = Some b -> exists b', contains Yaml value key' = Some b'.
Proof.
  destruct value; cbn [contains]; try discriminate; intros _; eexists; reflexivity.
Qed.

(** The errors of [load_config] on a file that exists and parses.  A
    [KeyError] is raised exactly when the loaded value takes the test
    [key in config] (a mapping, a sequence, a text) and one of the five
    keys is not in it; for a mapping, that is exactly when one of the five
    keys is missing.  A value that does not take the test, such as the
    [None] of an empty file, ends in a [TypeError], and so does a sequence
    or a text that passes all five tests. *)
Theorem load_config_key_error (value : Value Yaml) :
  ((exists message, load_config Yaml (Parsed value) = inl (KeyError message)) <->
   exists key, In key required_keys /\ contains Yaml value key = Some false) /\
  (forall config,
     value = Dictionary config ->
     ((exists message, load_config Yaml (Parsed value) = inl (KeyError message)) <->
      exists key, In key required_keys /\ config key = None)) /\
  (load_config Yaml (Parsed value) = inl TypeError <->
   contains Yaml value "api-key" = None \/
   ((forall key, In key required_keys -> contains Yaml value key = Some true) /\
    forall config, value <> Dictionary config)).
Proof.
  assert (K : (exists message,
                 load_config Yaml (Parsed value) = inl (KeyError message)) <->
              exists key, In key required_keys /\ contains Yaml value key = Some false).
  { unfold required_keys. cbn [load_config In]. unfold require. split.
    - destruct (contains Yaml value "api-key") as [[|]|] eqn:K1;
        [|intros _; exists "api-key"%string; split; [tauto|exact K1]
         |intros [m H]; discriminate].
      destruct (contains Yaml value "file-paths") as [[|]|] eqn:K2;
        [|intros _; exists "file-paths"%string; split; [tauto|exact K2]
         |intros [m H]; discriminate].
      destruct (contains Yaml value "directory-excludes") as [[|]|] eqn:K3;
        [|intros _; exists "directory-excludes"%string; split; [tauto|exact K3]
         |intros [m H]; discriminate].
      destruct (contains Yaml value "file-excludes") as [[|]|] eqn:K4;
        [|intros _; exists "file-excludes"%string; split; [tauto|exact K4]
         |intros [m H]; discriminate].
      destruct (contains Yaml value "workspace-slug") as [[|]|] eqn:K5;
        [|intros _; exists "workspace-slug"%string; split; [tauto|exact K5]
         |intros [m H]; discriminate].
      intros [m H]. exfalso. unfold construct, index in H.
      destruct value as [| |s|has|config]; try discriminate.
      cbn [contains] in K1, K2, K3, K4, K5.
      destruct (config "api-key"%string); [|discriminate].
      destruct (config "file-paths"%string); [|discriminate].
      destruct (config "directory-excludes"%string); [|discriminate].
      destruct (config "file-excludes"%string); [|discriminate].
      destruct (config "workspace-slug"%string); discriminate.
    - intros [key [Hkey Hfalse]].
      destruct (contains_container value key "api-key" _ Hfalse) as [b1 K1].
      destruct (contains_container value key "file-paths" _ Hfalse) as [b2 K2].
      destruct (contains_container value key "directory-excludes" _ Hfalse) as [b3 K3].
      destruct (contains_container value key "file-excludes" _ Hfalse) as [b4 K4].
      destruct (contains_container value key "workspace-slug" _ Hfalse) as [b5 K5].
      rewrite K1. destruct b1; [|eexists; reflexivity].
      rewrite K2. destruct b2; [|eexists; reflexivity].
      rewrite K3. destruct b3; [|eexists; reflexivity].
      rewrite K4. destruct b4; [|eexists; reflexivity].
      rewrite K5. destruct b5; [|eexists; reflexivity].
      exfalso. destruct Hkey as [<-|[<-|[<-|[<-|[<-|[]]]]]]; congruence. }
  split; [exact K|]. split.
  - intros config ->. rewrite K. cbn [contains]. split.
    + intros [key [Hkey H]]. exists key. split; [exact Hkey|].
      destruct (config key); [discriminate|reflexivity].
    + intros [key [Hkey H]]. exists key. split; [exact Hkey|]. now rewrite H.
  - unfold required_keys. cbn [load_config]. unfold require. split.
    + destruct (contains Yaml value "api-key") as [[|]|] eqn:K1;
        [|discriminate|intros _; now left].
      destruct (contains Yaml value "file-paths") as [[|]|] eqn:K2;
        [|discriminate|destruct value; discriminate].
      destruct (contains Yaml value "directory-excludes") as [[|]|] eqn:K3;
        [|discriminate|destruct value; discriminate].
      destruct (contains Yaml value "file-excludes") as [[|]|] eqn:K4;
        [|discriminate|destruct value; discriminate].
      destruct (contains Yaml value "workspace-slug") as [[|]|] eqn:K5;
        [|discriminate|destruct value; discriminate].
      intros H. right. split.
      * intros key [<-|[<-|[<-|[<-|[<-|[]]]]]]; assumption.
      * intros config ->. unfold construct, index in H.
        cbn [contains] in K1, K2, K3, K4, K5.
        destruct (config "api-key"%string); [|discriminate].
        destruct (config "file-paths"%string); [|discriminate].
        destruct (config "directory-excludes"%string); [|discriminate].
        destruct (config "file-excludes"%string); [|discriminate].
        destruct (config "workspace-slug"%string); discriminate.
    + intros [H|[Hall Hnd]].
      * now rewrite H.
      * rewrite (Hall "api-key"%string), (Hall "file-paths"%string),
          (Hall "directory-excludes"%string), (Hall "file-excludes"%string),
          (Hall "workspace-slug"%string); cbn [In]; try tauto.
        destruct value as [| |s|has|config]; try reflexivity.
        now contradiction (Hnd config).
Qed.

End ConfigFacts.

(* ------------------------------------------------------------------ *)
(** ** Phase 1 on a file without a record *)

Section UntrackedFile.
Context {R : Type} (http : Http R) (fs : FileSystem).



End UntrackedFile.


